(** * Shallow embedding of the criteria core of service-manager

    Sources embedded here:
    - [pkg/query/selection.go]: operators, [Criterion], [Validate],
      [mergeCriteria], [AddCriteria], [CriteriaForContext],
      [ContextWithCriteria], [process], [findRightOp];
    - [pkg/query/selection.go], further: [OrderResultBy], [LimitResultBy],
      [BuildCriteriaFromRequest], [ByLeftOp.Less];
    - the OIDC label criteria filter (unnamed part 000): [Run];
    - [storage/postgres] (two versions, unnamed parts 003 and 004):
      [list] and the two [validateFieldQueryParams];
      of part 004 also [getDBTags], [columnsByTags], [getTags],
      [isAutoIncrementable],
      the statement of [create], [checkUniqueViolation],
      [checkIntegrityViolation], [getJSONText] and [getJSONRawMessage].

    Go strings are modelled as Rocq [string] (a list of bytes). The scan of
    [findRightOp] ranges over runes but indexes the string by the rune
    counter; the model steps byte by byte, which is the same on ASCII text.
    Go runtime panics (index out of range) are modelled by the error
    [IndexOutOfRange]. *)

From Stdlib Require Import String Ascii List ZArith Bool Lia.
Import ListNotations.
Open Scope string_scope.

Module Query.

(** ** Operators (selection.go, lines 31-73) *)

Inductive Operator :=
| EqualsOperator
| NotEqualsOperator
| GreaterThanOperator
| GreaterThanOrEqualOperator
| LessThanOperator
| LessThanOrEqualOperator
| InOperator
| NotInOperator
| EqualsOrNilOperator
| NoOperator.

(** The string value of each operator constant. *)
Definition op_token (op : Operator) : string :=
  match op with
  | EqualsOperator => "="
  | NotEqualsOperator => "!="
  | GreaterThanOperator => "gt"
  | GreaterThanOrEqualOperator => "gte"
  | LessThanOperator => "lt"
  | LessThanOrEqualOperator => "lte"
  | InOperator => "in"
  | NotInOperator => "notin"
  | EqualsOrNilOperator => "eqornil"
  | NoOperator => "nop"
  end.

Definition IsMultiVariate (op : Operator) : bool :=
  match op with InOperator | NotInOperator => true | _ => false end.

Definition IsNullable (op : Operator) : bool :=
  match op with EqualsOrNilOperator => true | _ => false end.

Definition IsNumeric (op : Operator) : bool :=
  match op with
  | LessThanOperator | GreaterThanOperator
  | LessThanOrEqualOperator | GreaterThanOrEqualOperator => true
  | _ => false
  end.

(** [var operators], in the order the parser tries them. *)
Definition operators : list Operator :=
  [EqualsOperator; NotEqualsOperator; InOperator; NotInOperator;
   GreaterThanOperator; GreaterThanOrEqualOperator; LessThanOperator;
   LessThanOrEqualOperator; EqualsOrNilOperator].

Definition OpenBracket : ascii := "[".
Definition CloseBracket : ascii := "]".
Definition Separator : ascii := "|".
Definition OperandSeparator : ascii := " ".
Definition Backslash : ascii := ascii_of_nat 92.
Definition Newline : ascii := ascii_of_nat 10.

(** ** Criteria (selection.go, lines 86-152) *)

Inductive CriterionType := FieldQuery | LabelQuery | ResultQuery.

Definition ctype_eqb (a b : CriterionType) : bool :=
  match a, b with
  | FieldQuery, FieldQuery | LabelQuery, LabelQuery
  | ResultQuery, ResultQuery => true
  | _, _ => false
  end.

Definition OrderBy : string := "orderBy".
Definition Limit : string := "limit".

(** [type Criterion struct { LeftOp; Operator; RightOp; Type }] *)
Record Criterion := mkCriterion {
  LeftOp : string;
  Oper : Operator;
  RightOp : list string;
  Typ : CriterionType
}.

Definition newCriterion (leftOp : string) (operator : Operator)
  (rightOp : list string) (criteriaType : CriterionType) : Criterion :=
  {| LeftOp := leftOp; Oper := operator; RightOp := rightOp; Typ := criteriaType |}.

Definition ByField (operator : Operator) (leftOp : string) (rightOp : list string) :=
  newCriterion leftOp operator rightOp FieldQuery.

Definition ByLabel (operator : Operator) (leftOp : string) (rightOp : list string) :=
  newCriterion leftOp operator rightOp LabelQuery.

(** ** Errors and results *)

(** [UnsupportedQueryError] is [util.UnsupportedQueryError]; [CastError] is
    the plain [fmt.Errorf] returned when [strconv.Atoi] fails;
    [IndexOutOfRange] is a Go runtime panic. Messages are not modelled. *)
Inductive QueryError := UnsupportedQueryError | CastError | IndexOutOfRange.

Inductive result (A : Type) :=
| Ok (a : A)
| Err (e : QueryError).
Arguments Ok {A} a.
Arguments Err {A} e.

(** ** strconv.Atoi (64-bit int)

    Both the fast path and [ParseInt(s, 10, 0)] accept exactly an optional
    sign followed by at least one decimal digit, with a value in the int64
    range; base 10 forbids underscores. *)

Definition digit_value (c : ascii) : option Z :=
  let n := nat_of_ascii c in
  if (48 <=? n)%nat && (n <=? 57)%nat then Some (Z.of_nat (n - 48)) else None.

Fixpoint digits_value (acc : Z) (s : string) : option Z :=
  match s with
  | EmptyString => Some acc
  | String c s' =>
      match digit_value c with
      | Some d => digits_value (acc * 10 + d)%Z s'
      | None => None
      end
  end.

Definition Atoi (s : string) : option Z :=
  let '(neg, body) :=
    match s with
    | String "-" r => (true, r)
    | String "+" r => (false, r)
    | _ => (false, s)
    end in
  match body with
  | EmptyString => None
  | _ =>
      match digits_value 0 body with
      | None => None
      | Some n =>
          let v := if neg then (- n)%Z else n in
          if ((- 2 ^ 63 <=? v) && (v <? 2 ^ 63))%Z then Some v else None
      end
  end.

(** ** String helpers *)

Fixpoint contains_char (ch : ascii) (s : string) : bool :=
  match s with
  | EmptyString => false
  | String c s' => Ascii.eqb c ch || contains_char ch s'
  end.

(** [strings.FieldsFunc(s, func(r) bool { return r == sep })]: the maximal
    runs of non-separator characters. *)
Fixpoint fields_sep (sep : ascii) (cur : string) (s : string) : list string :=
  match s with
  | EmptyString => if String.eqb cur "" then [] else [cur]
  | String c s' =>
      if Ascii.eqb c sep
      then ((if String.eqb cur "" then [] else [cur]) ++ fields_sep sep "" s')%list
      else fields_sep sep (cur ++ String c EmptyString) s'
  end.

Definition FieldsFunc (s : string) : list string := fields_sep Separator "" s.

(** ** Validation and merge, parameterised by the two library predicates
    [isNumeric] ([strconv.Atoi] or [strconv.ParseFloat] succeeds) and
    [isDateTime] ([time.Parse(time.RFC3339, _)] succeeds). *)

Section Validation.

Variable isNumeric : string -> bool.
Variable isDateTime : string -> bool.

(** The checks of [Validate] after the numeric one (lines 189-201). *)
Definition validate_keys (c : Criterion) : option QueryError :=
  if contains_char Separator (LeftOp c) then
    match FieldsFunc (LeftOp c) with
    | [] => Some IndexOutOfRange   (* parts[len(parts)-1] on an empty slice *)
    | _ => Some UnsupportedQueryError
    end
  else if existsb (contains_char Newline) (RightOp c) then Some UnsupportedQueryError
  else None.

(** [func (c Criterion) Validate() error] (lines 155-202). *)
Definition Validate (c : Criterion) : option QueryError :=
  match Typ c with
  | ResultQuery =>
      let limit_check :=
        if String.eqb (LeftOp c) Limit then
          match RightOp c with
          | [] => Some IndexOutOfRange
          | r0 :: _ =>
              match Atoi r0 with
              | None => Some CastError
              | Some limit => if (limit <? 1)%Z then Some UnsupportedQueryError else None
              end
          end
        else None in
      match limit_check with
      | Some e => Some e
      | None =>
          if String.eqb (LeftOp c) OrderBy then
            match RightOp c with
            | [] => Some UnsupportedQueryError
            | [_] => Some UnsupportedQueryError
            | _ => None
            end
          else None
      end
  | _ =>
      if (1 <? List.length (RightOp c))%nat && negb (IsMultiVariate (Oper c))
      then Some UnsupportedQueryError
      else if IsNullable (Oper c) && negb (ctype_eqb (Typ c) FieldQuery)
      then Some UnsupportedQueryError
      else if IsNumeric (Oper c) then
        match RightOp c with
        | [] => Some IndexOutOfRange
        | r0 :: _ =>
            if negb (isNumeric r0) && negb (isDateTime r0)
            then Some UnsupportedQueryError
            else validate_keys c
        end
      else validate_keys c
  end.

(** The value of [m[leftOp]] in the two occurrence maps of
    [mergeCriteria]: the number of criteria of type [t] keyed [k]. *)
Definition count_key (t : CriterionType) (k : string) (all : list Criterion) : nat :=
  List.length (filter (fun c => ctype_eqb (Typ c) t && String.eqb (LeftOp c) k) all).

(** The loop over [c2] in [mergeCriteria] (lines 218-231); [all] is the
    slice [append(c1, c2...)] the counts were taken from. *)
Fixpoint merge_loop (all c2 : list Criterion) : option QueryError :=
  match c2 with
  | [] => None
  | nc :: rest =>
      if (1 <? count_key LabelQuery (LeftOp nc) all)%nat && ctype_eqb (Typ nc) LabelQuery
      then Some UnsupportedQueryError
      else if (1 <? count_key FieldQuery (LeftOp nc) all)%nat && ctype_eqb (Typ nc) FieldQuery
      then Some UnsupportedQueryError
      else match Validate nc with
           | Some e => Some e
           | None => merge_loop all rest
           end
  end.

(** [mergeCriteria] on slice values (lines 204-234). *)
Definition mergeCriteria (c1 c2 : list Criterion) : result (list Criterion) :=
  match merge_loop (c1 ++ c2)%list c2 with
  | Some e => Err e
  | None => Ok (c1 ++ c2)%list
  end.

End Validation.

(** ** The right-operand scanner [findRightOp] (selection.go, lines 336-386) *)

(** [remaining[k]]; [None] is an index-out-of-range panic. *)
Definition byte_at (s : string) (k : nat) : option ascii := String.get k s.

(** [remaining[offset-1]] for the rune at [offset]: panics when [offset = 0]. *)
Definition prev_byte (s : string) (offset : nat) : option ascii :=
  match offset with
  | O => None
  | S k => byte_at s k
  end.

Definition is_byte (o : option ascii) (c : ascii) : bool :=
  match o with Some b => Ascii.eqb b c | None => false end.

(** The [for _, ch := range remaining] loop. [rem] is the whole of
    [remaining], [rest] the part not yet visited; the state is
    [(rightOp, rightOpBuffer, offset)]. The loop stops at the end of the
    input or at the [break] of an unescaped single separator. *)
Fixpoint scan (rem rest : string) (offset : nat) (buf : string) (acc : list string)
  : result (list string * string * nat) :=
  match rest with
  | EmptyString => Ok (acc, buf, offset)
  | String ch rest' =>
      if Ascii.eqb ch Separator then
        if (offset + 1 <? String.length rem)%nat
           && is_byte (byte_at rem (offset + 1)) Separator then
          (* third operand of the && : remaining[offset-1] != '\\' *)
          match prev_byte rem offset with
          | None => Err IndexOutOfRange
          | Some p =>
              if negb (Ascii.eqb p Backslash)
              then scan rem rest' (S offset) "" (acc ++ [buf])%list
              else
                (* condition false: fall to [else if remaining[offset-1] == Separator] *)
                if Ascii.eqb p Separator then scan rem rest' (S offset) buf acc
                else (* escaped separator: remove escaping symbol *)
                  if (String.length buf <? offset - 1)%nat then Err IndexOutOfRange
                  else scan rem rest' (S offset)
                         (substring 0 (offset - 1) buf ++ String ch EmptyString) acc
          end
        else
          match prev_byte rem offset with
          | None => Err IndexOutOfRange
          | Some p =>
              if Ascii.eqb p Separator then scan rem rest' (S offset) buf acc
              else if negb (Ascii.eqb p Backslash)
              then Ok ((acc ++ [buf])%list, "", offset)   (* break *)
              else
                if (String.length buf <? offset - 1)%nat then Err IndexOutOfRange
                else scan rem rest' (S offset)
                       (substring 0 (offset - 1) buf ++ String ch EmptyString) acc
          end
      else scan rem rest' (S offset) (buf ++ String ch EmptyString) acc
  end.

(** Last byte of a string and the string without it. *)
Definition last_byte (s : string) : option ascii := byte_at s (String.length s - 1).
Definition drop_last (s : string) : string := substring 0 (String.length s - 1) s.

(** The bracket check for multivariate operators (lines 368-381), on a
    non-empty [rightOp]. *)
Definition strip_brackets (rightOp : list string) : result (list string) :=
  match rightOp with
  | [] => Ok []
  | firstElement :: tl =>
      match firstElement with
      | String b first' =>
          if Ascii.eqb b OpenBracket then
            let r := first' :: tl in
            let lastElement := last r "" in
            match lastElement with
            | EmptyString => Err IndexOutOfRange  (* lastElement[len(lastElement)-1] *)
            | _ =>
                if is_byte (last_byte lastElement) CloseBracket
                then Ok (removelast r ++ [drop_last lastElement])%list
                else Err UnsupportedQueryError
            end
          else Err UnsupportedQueryError
      | EmptyString => Err UnsupportedQueryError
      end
  end.

(** Lines 365-367: a non-empty buffer is closed as the last element. *)
Definition close_buffer (acc : list string) (buf : string) : list string :=
  if (0 <? String.length buf)%nat then (acc ++ [buf])%list else acc.

(** [findRightOp(remaining, leftOp, operator, criteriaType)]: the right
    operands and the offset of the terminating separator. *)
Definition findRightOp (remaining : string) (leftOp : string) (operator : Operator)
  (criteriaType : CriterionType) : result (list string * nat) :=
  match scan remaining remaining 0 "" [] with
  | Err e => Err e
  | Ok (acc, buf, offset) =>
      let rightOp := close_buffer acc buf in
      let checked :=
        if (0 <? List.length rightOp)%nat && IsMultiVariate operator
        then strip_brackets rightOp else Ok rightOp in
      match checked with
      | Err e => Err e
      | Ok [] => Ok ([""], offset)
      | Ok r => Ok (r, offset)
      end
  end.

(** ** The segment parser [process] (selection.go, lines 293-334) *)

(** [strings.HasPrefix(remaining, " " + op + " ")] *)
Definition op_pattern (op : Operator) : string :=
  String OperandSeparator (op_token op ++ String OperandSeparator EmptyString).

(** The first operator whose pattern starts [remaining] ([break] on match). *)
Fixpoint match_operator (ops : list Operator) (remaining : string) : option Operator :=
  match ops with
  | [] => None
  | op :: ops' => if String.prefix (op_pattern op) remaining then Some op
                  else match_operator ops' remaining
  end.

(** [input[from:]] *)
Definition slice_from (input : string) (from : nat) : string :=
  substring from (String.length input - from) input.

Section Parsing.

Variable isNumeric : string -> bool.
Variable isDateTime : string -> bool.

Definition process_finish (c : list Criterion) : result (list Criterion) :=
  match c with
  | [] => Err UnsupportedQueryError
  | _ => Ok c
  end.

(** One run of the [for i := 0; i < len(input); i++] loop per fuel unit;
    every iteration increases [i], so [String.length input] units suffice.
    [operator = None] is the unset operator [""]. *)
Fixpoint process_loop (fuel : nat) (input : string) (criteriaType : CriterionType)
  (i j : nat) (leftOp : string) (operator : option Operator) (c : list Criterion)
  : result (list Criterion) :=
  match fuel with
  | O => process_finish c
  | S fuel' =>
      (* the [else] branch: look for an operator pattern at [i] *)
      let scan_branch :=
        match match_operator operators (slice_from input i) with
        | Some op =>
            if (i <? j)%nat then Err IndexOutOfRange
            else process_loop fuel' input criteriaType (S i) j
                   (substring j (i - j) input) (Some op) c
        | None => process_loop fuel' input criteriaType (S i) j leftOp operator c
        end in
      if (i <? String.length input)%nat then
        match operator with
        | Some op =>
            if negb (String.eqb leftOp "") then
              let start := i + String.length (op_token op) + 1 in
              if (String.length input <? start)%nat then Err IndexOutOfRange
              else
                match findRightOp (slice_from input start) leftOp op criteriaType with
                | Err e => Err e
                | Ok (rightOp, offset) =>
                    let criterion := newCriterion leftOp op rightOp criteriaType in
                    match Validate isNumeric isDateTime criterion with
                    | Some e => Err e
                    | None =>
                        let i' := i + offset + String.length (op_token op) + 1 in
                        process_loop fuel' input criteriaType (S i') (S i') "" None
                          (c ++ [criterion])%list
                    end
                end
            else scan_branch
        | None => scan_branch
        end
      else process_finish c
  end.

Definition process (input : string) (criteriaType : CriterionType) : result (list Criterion) :=
  if String.eqb input "" then Ok []
  else process_loop (String.length input) input criteriaType 0 0 "" None [].

End Parsing.

End Query.

(** * Criteria carrier: Go slices over a heap of backing arrays

    [AddCriteria] stores the slice returned by [mergeCriteria] in the
    context; [mergeCriteria] builds it with [append(c1, c2...)], which
    writes into the backing array of [c1] when its capacity allows. A slice
    is a header [(ptr, len, cap)] into a heap of arrays; a cell [None] holds
    the zero [Criterion]. *)

Module Carrier.
Import Query.
Local Open Scope list_scope.

Record Slice := mkSlice { ptr : nat; len : nat; cap : nat }.

Definition Array := list (option Criterion).
Definition Heap := list Array.

(** The elements [s[0:len]] of a slice. *)
Definition read (h : Heap) (s : Slice) : list (option Criterion) :=
  firstn (len s) (nth (ptr s) h []).

(** The criteria stored in a list of cells (a zero cell is of no type and
    is never counted by [mergeCriteria]). *)
Definition cells (l : list (option Criterion)) : list Criterion :=
  flat_map (fun o => match o with Some c => [c] | None => [] end) l.

Definition write_cells (arr : Array) (pos : nat) (xs : list Criterion) : Array :=
  firstn pos arr ++ map Some xs ++ skipn (pos + List.length xs) arr.

(** The store of a whole array at index [k] (no such array: no effect). *)
Fixpoint replace_nth (h : Heap) (k : nat) (arr : Array) : Heap :=
  match h, k with
  | [], _ => []
  | _ :: tl, O => arr :: tl
  | a :: tl, S k' => a :: replace_nth tl k' arr
  end.

(** The builtin [append(s, xs...)]: in place when [len + |xs| <= cap],
    otherwise into a new array whose capacity [grow cap needed] is chosen
    by the runtime. *)
Definition append (grow : nat -> nat -> nat) (h : Heap) (s : Slice) (xs : list Criterion)
  : Heap * Slice :=
  let n := len s + List.length xs in
  if (n <=? cap s)%nat then
    (replace_nth h (ptr s) (write_cells (nth (ptr s) h []) (len s) xs),
     mkSlice (ptr s) n (cap s))
  else
    let nc := grow (cap s) n in
    (h ++ [read h s ++ map Some xs ++ repeat None (nc - n)],
     mkSlice (List.length h) n nc).

(** The growth rule of the Go runtime ([growslice]) below 256 elements:
    double the capacity, or take the needed length when doubling is not
    enough. The size-class rounding that follows it keeps the capacities
    1, 2 and 4 of a 72-byte [Criterion] as they are. *)
Definition go_grow (oldcap needed : nat) : nat :=
  if (2 * oldcap <? needed)%nat then needed else 2 * oldcap.

(** The value stored under [criteriaCtxKey{}]; [None] when unset. *)
Definition Context := option Slice.

(** [CriteriaForContext]: [[]Criterion{}] (length and capacity 0) when unset. *)
Definition CriteriaForContext (ctx : Context) : Slice :=
  match ctx with
  | None => mkSlice 0 0 0
  | Some s => s
  end.

Definition ContextWithCriteria (ctx : Context) (criteria : Slice) : Context :=
  Some criteria.

Section Merge.

Variable grow : nat -> nat -> nat.
Variable isNumeric : string -> bool.
Variable isDateTime : string -> bool.

(** [mergeCriteria(c1, c2)] on slices: the counts are taken from
    [append(c1, c2...)], and the result is a second [append(c1, c2...)]. *)
Definition mergeCriteriaH (h : Heap) (c1 : Slice) (c2 : list Criterion)
  : Heap * result Slice :=
  let '(h1, all) := append grow h c1 c2 in
  match merge_loop isNumeric isDateTime (cells (read h1 all)) c2 with
  | Some e => (h1, Err e)
  | None =>
      let '(h2, res) := append grow h1 c1 c2 in
      (h2, Ok res)
  end.

(** [AddCriteria(ctx, newCriteria...)] *)
Definition AddCriteria (h : Heap) (ctx : Context) (newCriteria : list Criterion)
  : Heap * result Context :=
  let currentCriteria := CriteriaForContext ctx in
  match mergeCriteriaH h currentCriteria newCriteria with
  | (h', Err e) => (h', Err e)
  | (h', Ok criteria) => (h', Ok (ContextWithCriteria ctx criteria))
  end.

End Merge.

(** A slice header that points into the heap (or has no array at all). *)
Definition wf_slice (h : Heap) (s : Slice) : Prop :=
  (len s <= cap s)%nat /\
  (cap s = 0%nat \/ ((ptr s < List.length h)%nat /\ List.length (nth (ptr s) h []) = cap s)).

End Carrier.

(** * storage/postgres *)

(** Unnamed part 003 (the older storage module). *)
Module Postgres003.
Import Query.

(** [list(ctx, db, table, filter, dtos)] (lines 157-177): the statement text
    and the arguments handed to [db.SelectContext] (none). The Go map
    [filter] is an association list in iteration order. *)
Definition list' (table : string) (filter : list (string * list string))
  : string * list string :=
  let sqlQuery := "SELECT * FROM " ++ table in
  match filter with
  | [] => (sqlQuery, [])
  | _ =>
      let andPairs :=
        map (fun '(key, values) =>
               let orPairs :=
                 map (fun value =>
                        if negb (String.eqb value "")
                        then key ++ "='" ++ value ++ "'"
                        else key ++ " IS NULL") values in
               " (" ++ String.concat " OR " orPairs ++ ") ") filter in
      (sqlQuery ++ " WHERE " ++ String.concat " AND " andPairs, [])
  end.

(** [validateFieldQueryParams(baseEntity, criteria)] (lines 118-132);
    [columns] are the db tags of the base entity's fields. *)
Fixpoint validateFieldQueryParams (columns : list string) (criteria : list Criterion)
  : option QueryError :=
  match criteria with
  | [] => None
  | c :: rest =>
      if negb (existsb (String.eqb (LeftOp c)) columns) then Some UnsupportedQueryError
      else validateFieldQueryParams columns rest
  end.

End Postgres003.

(** Unnamed part 004 (the newer storage module). *)
Module Postgres004.
Import Query.

(** [validateFieldQueryParams(columns, criteria)] (lines 105-112). *)
Fixpoint validateFieldQueryParams (columns : list string) (criteria : list Criterion)
  : option QueryError :=
  match criteria with
  | [] => None
  | c :: rest =>
      if ctype_eqb (Typ c) FieldQuery && negb (existsb (String.eqb (LeftOp c)) columns)
      then Some UnsupportedQueryError
      else validateFieldQueryParams columns rest
  end.

(** [strings.Split(tag, ",")[0]]: the part of [tag] before its first comma. *)
Fixpoint before_comma (s : string) : string :=
  match s with
  | EmptyString => EmptyString
  | String c s' => if Ascii.eqb c "," then EmptyString else String c (before_comma s')
  end.

(** [columnsByTags(tags)] (lines 96-103): the keys set to [true] in the
    returned map ([tagType.Type] plays no part and is not modelled). *)
Definition columnsByTags (tags : list string) : list string := map before_comma tags.

(** [structs.Field] as the reflection library shows a field of a struct
    value: its name, its [db] tag ([""] when absent), whether it is a nil
    pointer ([Kind() == reflect.Ptr && IsZero()]) and, for an embedded
    field, the fields of the embedded struct. The model covers fields whose
    [field.Value()] can be taken: it has no unexported fields and no nil
    interface values, on which [reflect.ValueOf(field.Value()).Type()]
    (line 183) panics. *)
#[local] Set Warnings "-register-all".
Inductive Field :=
| mkField (name : string) (tag : string) (nil_ptr : bool) (embedded : option (list Field)).

(** [strings.ToLower] on ASCII text. *)
Definition lower_char (c : ascii) : ascii :=
  let n := nat_of_ascii c in
  if (65 <=? n)%nat && (n <=? 90)%nat then ascii_of_nat (n + 32) else c.

Fixpoint ToLower (s : string) : string :=
  match s with
  | EmptyString => EmptyString
  | String c s' => String (lower_char c) (ToLower s')
  end.

(** [isAutoIncrementable(tagValue)] (lines 145-148):
    [strings.Contains(tagValue, "auto_increment")]. *)
Definition isAutoIncrementable (tagValue : string) : bool :=
  match String.index 0 "auto_increment" tagValue with Some _ => true | None => false end.

(** The tags one field contributes in [getTags(fields, &set, predicate)]
    (lines 166-190): none for a nil pointer, those of its fields for an
    embedded struct, and otherwise its tag unless it is ["-"] or matches
    the predicate, the lower-cased field name standing for an empty tag. *)
Fixpoint field_tags (predicate : string -> bool) (f : Field) {struct f} : list string :=
  match f with
  | mkField name tag nil_ptr embedded =>
      if nil_ptr then []
      else match embedded with
           | Some sub =>
               (fix go (l : list Field) : list string :=
                  match l with
                  | [] => []
                  | g :: r => app (field_tags predicate g) (go r)
                  end) sub
           | None =>
               if String.eqb tag "-" || predicate tag then []
               else [if String.eqb tag "" then ToLower name else tag]
           end
  end.

(** [getTags(fields, &set, predicate)]: the tags appended to [set], in
    field order, embedded structs flattened in place. *)
Definition getTags (predicate : string -> bool) (fields : list Field) : list string :=
  flat_map (field_tags predicate) fields.

(** [getDBTags(structure, predicate)] (lines 155-164); [None] is a nil
    predicate. *)
Definition getDBTags (fields : list Field) (predicate : option (string -> bool)) : list string :=
  getTags (match predicate with Some p => p | None => fun _ => false end) fields.

(** The statement [create] (lines 69-94) prepares, or [None] for its
    ["No fields to insert"] error; its named parameters are bound from
    [argsDto]. *)
Definition create_statement (table : string) (argsDto : list Field) : option string :=
  let dbTags := getDBTags argsDto (Some isAutoIncrementable) in
  match dbTags with
  | [] => None
  | _ => Some ("INSERT INTO " ++ table ++ " (" ++ String.concat ", " dbTags ++
               ") VALUES(:" ++ String.concat ", :" dbTags ++ ") RETURNING *;")
  end.

(** A Go byte slice ([json.RawMessage], [sqlxtypes.JSONText]): [None] is the
    nil slice, [Some s] a non-nil one (possibly empty). *)
Definition Bytes := option string.

Definition bytes_len (b : Bytes) : nat :=
  match b with None => 0 | Some s => String.length s end.

Definition bytes_string (b : Bytes) : string :=
  match b with None => "" | Some s => s end.

(** [getJSONText(item)] (lines 261-267) *)
Definition getJSONText (item : Bytes) : Bytes :=
  if (bytes_len item =? 4)%nat && String.eqb (bytes_string item) "null" then Some "{}"
  else item.

(** [getJSONRawMessage(item)] (lines 269-277) *)
Definition getJSONRawMessage (item : Bytes) : Bytes :=
  if (bytes_len item <=? 4)%nat then
    let itemStr := bytes_string item in
    if String.eqb itemStr "{}" || String.eqb itemStr "null" then None else item
  else item.

(** Errors reaching the storage checks: a [*pq.Error] with its SQLSTATE
    code, the storage errors of [util], and any other error. *)
Inductive StorageError :=
| PqError (code : string)
| ErrAlreadyExistsInStorage
| ErrBadRequestStorage (cause : StorageError)
| ErrNotFoundInStorage
| OtherError (id : nat).

(** A check returns an error ([None] for nil) or panics. *)
Inductive Checked :=
| Returns (err : option StorageError)
| Panics.

Section Checks.

(** [pq.ErrorCode.Name()]: lib/pq's table from SQLSTATE codes to names. *)
Variable code_name : string -> string.

(** [checkUniqueViolation(ctx, err)] (lines 205-215) *)
Definition checkUniqueViolation (err : option StorageError) : option StorageError :=
  match err with
  | Some (PqError code) =>
      if String.eqb (code_name code) "unique_violation" then Some ErrAlreadyExistsInStorage
      else err
  | _ => err
  end.

(** [checkIntegrityViolation(ctx, err)] (lines 217-227); [Code.Class()] is
    [code[0:2]], which panics on a code shorter than two bytes. *)
Definition checkIntegrityViolation (err : option StorageError) : Checked :=
  match err with
  | Some (PqError code) =>
      if (String.length code <? 2)%nat then Panics
      else
        let cls := substring 0 2 code in
        if String.eqb cls "42" || String.eqb cls "44" || String.eqb cls "23"
        then Returns (Some (ErrBadRequestStorage (PqError code)))
        else Returns err
  | _ => Returns err
  end.

End Checks.

End Postgres004.

(** * Builders and the request entry point (selection.go) *)

Module Builders.
Import Query.

(** [strconv.Itoa] on a 64-bit [int]: the decimal digits of [n], most
    significant first, with a leading [-] for a negative value. [utoa]
    prepends the digits of [n] to [acc], one per round. *)
Definition digit_char (d : Z) : ascii := ascii_of_nat (48 + Z.to_nat d).

Fixpoint utoa (fuel : nat) (n : Z) (acc : string) : string :=
  match fuel with
  | O => acc
  | S f =>
      let acc' := String (digit_char (n mod 10)) acc in
      if (n <? 10)%Z then acc' else utoa f (n / 10) acc'
  end.

(** An int64 has at most 19 decimal digits, so 20 rounds cover it. *)
Definition Itoa (n : Z) : string :=
  if (n <? 0)%Z then String "-" (utoa 20 (- n) "") else utoa 20 n "".

(** [type OrderType string] *)
Definition AscOrder : string := "asc".
Definition DescOrder : string := "desc".

(** [OrderResultBy(field, orderType)] (lines 140-142) *)
Definition OrderResultBy (field orderType : string) : Criterion :=
  newCriterion OrderBy NoOperator [field; orderType] ResultQuery.

(** [LimitResultBy(limit)] (lines 145-148) *)
Definition LimitResultBy (limit : Z) : Criterion :=
  newCriterion Limit NoOperator [Itoa limit] ResultQuery.

(** [url.Values]: the parsed query of the request, a map from a key to its
    values; as an association list, the first binding of a key is its map
    entry. *)
Definition Values := list (string * list string).

(** [Values.Get(key)]: the first value of [key], or [""]. *)
Definition Get (v : Values) (key : string) : string :=
  match find (fun kv => String.eqb (fst kv) key) v with
  | Some (_, x :: _) => x
  | _ => ""
  end.

(** [string(queryType)] *)
Definition ctype_name (t : CriterionType) : string :=
  match t with
  | FieldQuery => "fieldQuery"
  | LabelQuery => "labelQuery"
  | ResultQuery => "resultQuery"
  end.

Definition supportedQueryTypes : list CriterionType := [FieldQuery; LabelQuery].

(** [ByLeftOp.Less(i, j)]: [c[i].LeftOp < c[j].LeftOp], byte-wise. *)
Definition ByLeftOp_Less (a b : Criterion) : bool := String.ltb (LeftOp a) (LeftOp b).

Section Build.

Variable isNumeric : string -> bool.
Variable isDateTime : string -> bool.
(** [sort.Sort(ByLeftOp(criteria))], the library sort. *)
Variable sortByLeftOp : list Criterion -> list Criterion.

(** The loop over [supportedQueryTypes] in [BuildCriteriaFromRequest]. *)
Fixpoint build_loop (types : list CriterionType) (query : Values) (criteria : list Criterion)
  : result (list Criterion) :=
  match types with
  | [] => Ok (sortByLeftOp criteria)
  | queryType :: rest =>
      let queryValues := Get query (ctype_name queryType) in
      match process isNumeric isDateTime queryValues queryType with
      | Err e => Err e
      | Ok querySegments =>
          match mergeCriteria isNumeric isDateTime criteria querySegments with
          | Err e => Err e
          | Ok criteria' => build_loop rest query criteria'
          end
      end
  end.

(** [BuildCriteriaFromRequest(request)] (lines 263-277), on the parsed query
    of the request URL. *)
Definition BuildCriteriaFromRequest (query : Values) : result (list Criterion) :=
  build_loop supportedQueryTypes query [].

End Build.

End Builders.

(** * The OIDC label criteria filter (unnamed part 000) *)

Module Filters.
Import Query Carrier.

(** [user.Data]: token data whose [Claims] decode to a string map ([None]
    when the decoding fails), or data of another kind. *)
Inductive UserData :=
| TokenData (claims : option (list (string * string)))
| OtherData.

(** [claims[claimKey]]: the first binding, or [""] when absent. *)
Definition claim (claims : list (string * string)) (k : string) : string :=
  match find (fun kv => String.eqb (fst kv) k) claims with
  | Some (_, v) => v
  | None => ""
  end.

(** What [Run] does: pass the request on with a context, or fail. *)
Inductive Outcome :=
| Next (ctx : Context)
| Fail.

Section Run.

Variable grow : nat -> nat -> nat.
Variable isNumeric : string -> bool.
Variable isDateTime : string -> bool.

(** The loop over [f.LabelCriteriaKeysGroupedByClaims]; [groups] lists the
    map's entries [(claimKey, labelKey)] in iteration order. *)
Fixpoint run_loop (claims : list (string * string)) (groups : list (string * string))
  (h : Heap) (ctx : Context) : Heap * Outcome :=
  match groups with
  | [] => (h, Next ctx)
  | (claimKey, labelKey) :: rest =>
      let criterion := ByLabel EqualsOperator labelKey [claim claims claimKey] in
      match AddCriteria grow isNumeric isDateTime h ctx [criterion] with
      | (h', Err _) => (h', Fail)
      | (h', Ok ctx') => run_loop claims rest h' ctx'
      end
  end.

(** [OIDCLabelCriteriaFilter.Run(request, next)] (lines 24-55): [user]
    is [web.UserFromContext(ctx)]; the outcome is the context of the
    request handed to [next], or an error. *)
Definition Run (groups : list (string * string)) (user : option UserData)
  (h : Heap) (ctx : Context) : Heap * Outcome :=
  match user with
  | None => (h, Next ctx)
  | Some OtherData => (h, Next ctx)
  | Some (TokenData None) => (h, Fail)
  | Some (TokenData (Some claims)) => run_loop claims groups h ctx
  end.

End Run.

End Filters.

(** * Concrete inputs *)

Module Inputs.
Import Query Carrier.

(** Stand-ins for [strconv]/[time] used when evaluating on concrete
    inputs. They are consulted only for the numeric operators, which none
    of the concrete inputs below use. *)
Definition isNumeric_int (s : string) : bool :=
  match Atoi s with Some _ => true | None => false end.
Definition isDateTime_none (_ : string) : bool := false.

Definition Fx : Criterion := ByField EqualsOperator "x" ["1"].
Definition Fy : Criterion := ByField EqualsOperator "y" ["1"].
Definition Fz : Criterion := ByField EqualsOperator "z" ["1"].
Definition Fw : Criterion := ByField EqualsOperator "w" ["1"].
Definition Fx2 : Criterion := ByField EqualsOperator "x" ["2"].

(** The bracketed form of a list of elements: [[] ] prefixed to the first
    element and [ ]] appended to the last (the shape the claims describe). *)
Definition wrap_brackets (r : list string) : list string :=
  match r with
  | [] => []
  | x :: rest =>
      match rest with
      | [] => [String OpenBracket (x ++ String CloseBracket EmptyString)]
      | _ => String OpenBracket x ::
               app (removelast rest) [String.append (last rest "") (String CloseBracket EmptyString)]
      end
  end.

(** [AddCriteria] with the Go growth rule and the stand-in predicates. *)
Definition add (h : Heap) (ctx : Context) (cs : list Criterion) : Heap * result Context :=
  AddCriteria go_grow isNumeric_int isDateTime_none h ctx cs.

End Inputs.

(** * Theorems *)

Import Query Carrier Inputs.

(** Predicates used in the statements below. *)

(** The condition the loop of [mergeCriteria] puts on one incoming criterion. *)
Definition merge_ok (isNumeric isDateTime : string -> bool) (all : list Criterion)
  (c : Criterion) : Prop :=
  (Typ c <> ResultQuery -> (count_key (Typ c) (LeftOp c) all <= 1)%nat) /\
  Validate isNumeric isDateTime c = None.

(** The label criteria [Run] adds, in the iteration order of the map. *)
Definition run_criteria (claims : list (string * string)) (groups : list (string * string))
  : list Criterion :=
  map (fun '(claimKey, labelKey) => ByLabel EqualsOperator labelKey [Filters.claim claims claimKey])
    groups.

(** What [process] guarantees of each criterion it returns. *)
Definition parsed_ok (isNumeric isDateTime : string -> bool) (t : CriterionType)
  (c : Criterion) : Prop :=
  Typ c = t /\ LeftOp c <> "" /\ In (Oper c) operators /\
  Validate isNumeric isDateTime c = None.

(** A string starting with a decimal digit. *)
Definition digit_start (s : string) : Prop :=
  exists d r, (0 <= d < 10)%Z /\ s = String (Builders.digit_char d) r.

(** A string of ASCII bytes only. On such a string Go's
    [for _, ch := range remaining] visits one byte per rune, so its rune
    counter [offset] is also a byte index, as in [scan]. *)
Definition is_ascii (s : string) : bool :=
  forallb (fun c => (nat_of_ascii c <? 128)%nat) (list_ascii_of_string s).

(** A stand-in for lib/pq's code table, naming only [23505]. *)
Definition pq_code_name (code : string) : string :=
  if String.eqb code "23505" then "unique_violation" else "other".

(** C1. The filter listing of part 003 writes each filter value into the
    statement text between quotes and hands no argument to the driver: the
    value [x' OR '1'='1] becomes part of the SQL. *)
Lemma list_inlines_filter_value :
  Postgres003.list' "platforms" [("name", ["x' OR '1'='1"])] =
  ("SELECT * FROM platforms WHERE  (name='x' OR '1'='1') ", []).
Proof. reflexivity. Qed.

(** C2. The first escaped separator of a value loses its backslash
    ([name = foo\|bar] gives [foo|bar]), but a second one keeps it:
    [name = a\|b\|c] gives the value [a|b\|c], because the escape branch
    cuts the buffer at the scan offset, which runs one ahead of the buffer
    after the first dropped backslash. *)
Lemma escaped_separator_second_keeps_backslash :
  process isNumeric_int isDateTime_none "name = foo\|bar" FieldQuery =
    Ok [ByField EqualsOperator "name" ["foo|bar"]] /\
  process isNumeric_int isDateTime_none "name = a\|b\|c" FieldQuery =
    Ok [ByField EqualsOperator "name" ["a|b\|c"]].
Proof. split; reflexivity. Qed.

(** C3 (counterexample). A single separator inside the brackets ends the
    segment: [status in [a|b|c]] is rejected by the bracket check. *)
Lemma bracket_single_separator_rejected :
  process isNumeric_int isDateTime_none "status in [a|b|c]" FieldQuery =
    Err UnsupportedQueryError.
Proof. reflexivity. Qed.

(** C6. Two handles derived from one context share a backing array: after
    four successful [AddCriteria] calls from the empty context, a failed
    [AddCriteria] on the third handle writes its criterion into the slot the
    fourth handle reads, which then holds two field criteria keyed [x]. *)
Lemma carrier_sibling_failure_duplicates :
  match add [] None [Fx] with
  | (h1, Ok ctx1) =>
    match add h1 ctx1 [Fy] with
    | (h2, Ok ctx2) =>
      match add h2 ctx2 [Fz] with
      | (h3, Ok ctx3) =>
        match add h3 ctx3 [Fw] with
        | (h4, Ok ctx4) =>
            read h4 (CriteriaForContext ctx4) = map Some [Fx; Fy; Fz; Fw] /\
            match add h4 ctx3 [Fx2] with
            | (h5, Err _) =>
                read h5 (CriteriaForContext ctx4) = map Some [Fx; Fy; Fz; Fx2]
            | _ => False
            end
        | _ => False
        end
      | _ => False
      end
    | _ => False
    end
  | _ => False
  end.
Proof. vm_compute. split; reflexivity. Qed.

(** C7 (counterexample). An order criterion with a direction other than
    asc/desc passes [Validate]. *)
Lemma orderBy_direction_unchecked :
  Validate isNumeric_int isDateTime_none
    (newCriterion OrderBy NoOperator ["name"; "sideways"] ResultQuery) = None.
Proof. reflexivity. Qed.

(** C8 (counterexample). A field criterion with a single-value operator and
    no right operand passes [Validate]. *)
Lemma validate_accepts_no_operand :
  Validate isNumeric_int isDateTime_none (ByField EqualsOperator "x" []) = None.
Proof. reflexivity. Qed.

(** C9. The part 003 listing checks every criterion against the column
    allow-list, so a label criterion keyed [label_key] is rejected as an
    unsupported field; the part 004 check skips it. *)
Lemma label_key_rejected_by_part003 :
  Postgres003.validateFieldQueryParams ["id"; "platform_id"]
    [ByField EqualsOperator "platform_id" ["value"];
     ByLabel EqualsOperator "label_key" ["labelValue"]] = Some UnsupportedQueryError /\
  Postgres004.validateFieldQueryParams ["id"; "platform_id"]
    [ByField EqualsOperator "platform_id" ["value"];
     ByLabel EqualsOperator "label_key" ["labelValue"]] = None.
Proof. split; reflexivity. Qed.

(** C10 (counterexample). A label query ending right after [eqornil] is
    closed as [[""]] and then rejected by validation. *)
Lemma label_eqornil_empty_rejected :
  process isNumeric_int isDateTime_none "a eqornil " LabelQuery = Err UnsupportedQueryError.
Proof. reflexivity. Qed.

(** ** Validation *)

(** C8 (amended). A field or label criterion whose operator is not
    multivariate and that carries more than one right operand is rejected
    by [Validate]. (An empty right-operand list is not rejected by this
    check, see [validate_accepts_no_operand].) *)
Theorem validate_rejects_many_operands (isNumeric isDateTime : string -> bool) (c : Criterion)
  (Htyp : Typ c <> ResultQuery) (Hmv : IsMultiVariate (Oper c) = false)
  (Hlen : (1 < List.length (RightOp c))%nat) :
  Validate isNumeric isDateTime c = Some UnsupportedQueryError.
Proof.
  unfold Validate.
  apply Nat.ltb_lt in Hlen.
  destruct (Typ c); [| | contradiction]; rewrite Hlen, Hmv; reflexivity.
Qed.

(** C7 (amended). For a result criterion (with at least one operand when
    its key is [limit]), [Validate] fails exactly when the key is [limit]
    and its first operand is not an int64 in decimal or is below 1, or the
    key is [orderBy] and there are fewer than two operands. Nothing else
    (direction value, extra operands, other keys) is checked. *)
Theorem validate_result_query_exact (isNumeric isDateTime : string -> bool) (c : Criterion)
  (Htyp : Typ c = ResultQuery) (Hlim : LeftOp c = Limit -> RightOp c <> []) :
  Validate isNumeric isDateTime c <> None <->
  (LeftOp c = Limit /\
     match Atoi (hd "" (RightOp c)) with Some n => (n < 1)%Z | None => True end) \/
  (LeftOp c = OrderBy /\ (List.length (RightOp c) < 2)%nat).
Proof.
  unfold Validate. rewrite Htyp.
  destruct (String.eqb_spec (LeftOp c) Limit) as [HL | HL].
  - destruct (RightOp c) as [|r0 rs] eqn:Hr; [now destruct (Hlim HL)|].
    simpl. rewrite HL. simpl.
    destruct (Atoi r0) as [n|].
    + destruct (Z.ltb_spec n 1).
      * split; [intros _; left; auto | discriminate].
      * split; [contradiction|].
        intros [[_ Hn] | [Ho _]]; [lia | discriminate].
    + split; [intros _; left; auto | discriminate].
  - destruct (String.eqb_spec (LeftOp c) OrderBy) as [HO | HO].
    + destruct (RightOp c) as [|a [|b l]]; simpl.
      * split; [intros _; right; split; auto | discriminate].
      * split; [intros _; right; split; auto | discriminate].
      * split; [contradiction|].
        intros [[H _] | [_ H]]; [contradiction | lia].
    + split; [contradiction|].
      intros [[H _] | [H _]]; contradiction.
Qed.

(** ** Merge *)

(** With every incoming criterion valid, the loop of [mergeCriteria] passes
    exactly when no incoming field or label criterion has its key counted
    more than once among the criteria of its own type. *)
Lemma merge_loop_valid_none (isNumeric isDateTime : string -> bool) (all c2 : list Criterion) :
  (forall c, In c c2 -> Validate isNumeric isDateTime c = None) ->
  merge_loop isNumeric isDateTime all c2 = None <->
  (forall c, In c c2 -> Typ c <> ResultQuery ->
     (count_key (Typ c) (LeftOp c) all <= 1)%nat).
Proof.
  intros Hv. induction c2 as [|nc rest IH]; simpl.
  - split; [intros _ c [] | reflexivity].
  - assert (Hnc : Validate isNumeric isDateTime nc = None) by (apply Hv; left; reflexivity).
    specialize (IH (fun c H => Hv c (or_intror H))).
    assert (Hstep :
      merge_loop isNumeric isDateTime all rest = None ->
      (Typ nc <> ResultQuery -> (count_key (Typ nc) (LeftOp nc) all <= 1)%nat) ->
      (forall c, nc = c \/ In c rest -> Typ c <> ResultQuery ->
         (count_key (Typ c) (LeftOp c) all <= 1)%nat)).
    { intros Hr Hn c [<- | Hin]; [exact Hn | now apply IH]. }
    destruct (Typ nc) eqn:Ht; simpl;
      rewrite ?andb_false_r, ?andb_true_r.
    + destruct (Nat.ltb_spec 1 (count_key FieldQuery (LeftOp nc) all)) as [Hc | Hc].
      * split; [discriminate|].
        intros H. specialize (H nc (or_introl eq_refl)). rewrite Ht in H.
        assert (count_key FieldQuery (LeftOp nc) all <= 1)%nat by (apply H; discriminate).
        lia.
      * rewrite Hnc. split.
        -- intros Hr. apply Hstep; [exact Hr | intros _; exact Hc].
        -- intros H. apply IH. intros c Hin. apply H. right. exact Hin.
    + destruct (Nat.ltb_spec 1 (count_key LabelQuery (LeftOp nc) all)) as [Hc | Hc].
      * split; [discriminate|].
        intros H. specialize (H nc (or_introl eq_refl)). rewrite Ht in H.
        assert (count_key LabelQuery (LeftOp nc) all <= 1)%nat by (apply H; discriminate).
        lia.
      * simpl. rewrite Hnc. split.
        -- intros Hr. apply Hstep; [exact Hr | intros _; exact Hc].
        -- intros H. apply IH. intros c Hin. apply H. right. exact Hin.
    + rewrite Hnc. split.
      * intros Hr. apply Hstep; [exact Hr | intros Hf; contradiction].
      * intros H. apply IH. intros c Hin. apply H. right. exact Hin.
Qed.

(** C4. Merging a field criterion keyed [x] into a set holding a field
    criterion keyed [x] fails; merging a label criterion keyed [x] into it
    succeeds. In general, for valid incoming criteria, the merge succeeds
    exactly when each incoming field or label criterion's key occurs at most
    once among the criteria of its own type: counts are kept per type. *)
Theorem merge_duplicates_per_kind (isNumeric isDateTime : string -> bool) :
  mergeCriteria isNumeric isDateTime
    [ByField EqualsOperator "x" ["1"]] [ByField EqualsOperator "x" ["2"]] =
    Err UnsupportedQueryError /\
  mergeCriteria isNumeric isDateTime
    [ByField EqualsOperator "x" ["1"]] [ByLabel EqualsOperator "x" ["2"]] =
    Ok [ByField EqualsOperator "x" ["1"]; ByLabel EqualsOperator "x" ["2"]] /\
  (forall c1 c2 : list Criterion,
     (forall c, In c c2 -> Validate isNumeric isDateTime c = None) ->
     mergeCriteria isNumeric isDateTime c1 c2 = Ok (c1 ++ c2)%list <->
     (forall c, In c c2 -> Typ c <> ResultQuery ->
        (count_key (Typ c) (LeftOp c) (c1 ++ c2)%list <= 1)%nat)).
Proof.
  split; [reflexivity|]. split; [reflexivity|].
  intros c1 c2 Hv. rewrite <- (merge_loop_valid_none isNumeric isDateTime (c1 ++ c2)%list c2 Hv).
  unfold mergeCriteria.
  destruct (merge_loop isNumeric isDateTime (c1 ++ c2)%list c2); split; congruence.
Qed.

(** ** Slices and [append] *)

Section SliceLemmas.
Local Open Scope list_scope.

Lemma length_replace_nth (h : Heap) (k : nat) (arr : Array) :
  List.length (replace_nth h k arr) = List.length h.
Proof.
  revert k; induction h as [|a tl IH]; intros [|k]; simpl; auto.
Qed.

Lemma nth_replace_nth_same (h : Heap) (k : nat) (arr : Array) :
  (k < List.length h)%nat -> nth k (replace_nth h k arr) [] = arr.
Proof.
  revert k; induction h as [|a tl IH]; intros [|k] Hk; simpl in *; try lia; auto.
  apply IH. lia.
Qed.

Lemma nth_replace_nth_other (h : Heap) (k j : nat) (arr : Array) :
  j <> k -> nth j (replace_nth h k arr) [] = nth j h [].
Proof.
  revert k j; induction h as [|a tl IH]; intros [|k] [|j] Hjk; simpl;
    try reflexivity; try lia; try (destruct j; reflexivity).
  apply IH. lia.
Qed.

Lemma replace_nth_overflow (h : Heap) (k : nat) (arr : Array) :
  (List.length h <= k)%nat -> replace_nth h k arr = h.
Proof.
  revert k; induction h as [|a tl IH]; intros [|k] Hk; simpl in *; try lia; auto.
  f_equal. apply IH. lia.
Qed.

Lemma length_write_cells (arr : Array) (pos : nat) (xs : list Criterion) :
  (pos + List.length xs <= List.length arr)%nat ->
  List.length (write_cells arr pos xs) = List.length arr.
Proof.
  intros H. unfold write_cells.
  rewrite !length_app, length_firstn, length_map, length_skipn. lia.
Qed.

Lemma firstn_write_cells_prefix (arr : Array) (pos : nat) (xs : list Criterion) :
  (pos <= List.length arr)%nat ->
  firstn pos (write_cells arr pos xs) = firstn pos arr.
Proof.
  intros H. unfold write_cells.
  rewrite firstn_app, length_firstn, Nat.min_l by exact H.
  rewrite Nat.sub_diag, firstn_O, app_nil_r.
  rewrite firstn_firstn, Nat.min_id. reflexivity.
Qed.

Lemma firstn_write_cells_all (arr : Array) (pos : nat) (xs : list Criterion) :
  (pos + List.length xs <= List.length arr)%nat ->
  firstn (pos + List.length xs) (write_cells arr pos xs) = firstn pos arr ++ map Some xs.
Proof.
  intros H. unfold write_cells.
  rewrite firstn_app, length_firstn, Nat.min_l by lia.
  rewrite firstn_firstn, Nat.min_r by lia.
  replace (pos + List.length xs - pos)%nat with (List.length (map Some xs))
    by (rewrite length_map; lia).
  rewrite firstn_app, firstn_all, Nat.sub_diag, firstn_O, app_nil_r. reflexivity.
Qed.

Lemma length_read (h : Heap) (s : Slice) :
  wf_slice h s -> List.length (read h s) = len s.
Proof.
  intros [Hlc [Hc | [_ Ha]]]; unfold read.
  - assert (len s = 0%nat) as -> by lia. reflexivity.
  - rewrite length_firstn. lia.
Qed.

Lemma cells_app (l1 l2 : list (option Criterion)) :
  cells (l1 ++ l2) = cells l1 ++ cells l2.
Proof. unfold cells. apply flat_map_app. Qed.

Lemma cells_map_Some (xs : list Criterion) : cells (map Some xs) = xs.
Proof. induction xs as [|x xs IH]; simpl; [reflexivity | now rewrite IH]. Qed.

Variable grow : nat -> nat -> nat.
Hypothesis grow_enough : forall oldcap needed, (needed <= grow oldcap needed)%nat.

(** [append(s, xs...)] leaves the elements of [s] as they were, returns a
    slice holding [s]'s elements followed by [xs], and keeps every
    well-formed header well formed. *)
Lemma append_spec (h : Heap) (s : Slice) (xs : list Criterion) :
  wf_slice h s ->
  let '(h', s') := append grow h s xs in
  read h' s = read h s /\
  read h' s' = read h s ++ map Some xs /\
  wf_slice h' s' /\
  (forall t, wf_slice h t -> wf_slice h' t).
Proof.
  intros Hwf. pose proof Hwf as [Hlc Hp].
  unfold append.
  destruct (Nat.leb_spec (len s + List.length xs) (cap s)) as [Hin | Hout].
  - (* in place *)
    set (arr := nth (ptr s) h []).
    assert (Harr : (len s + List.length xs <= List.length arr)%nat \/
                   (ptr s >= List.length h)%nat /\ len s = 0%nat /\ xs = []).
    { destruct Hp as [Hc | [Hpt Ha]].
      - destruct (Nat.lt_ge_cases (ptr s) (List.length h)) as [Hpt | Hpt].
        + left. lia.
        + right. split; [exact Hpt|]. split; [lia|].
          destruct xs; [reflexivity | simpl in Hin; lia].
      - left. unfold arr. lia. }
    destruct (Nat.lt_ge_cases (ptr s) (List.length h)) as [Hpt | Hpt].
    + assert (Hfit : (len s + List.length xs <= List.length arr)%nat).
      { destruct Harr as [H | [H _]]; [exact H | lia]. }
      unfold read; simpl.
      rewrite !nth_replace_nth_same by exact Hpt.
      split; [apply firstn_write_cells_prefix; lia|].
      split; [apply firstn_write_cells_all; exact Hfit|].
      split.
      * split; [simpl; exact Hin|]. simpl.
        destruct Hp as [Hc | [_ Ha]]; [left; exact Hc | right].
        rewrite length_replace_nth, nth_replace_nth_same by exact Hpt.
        rewrite length_write_cells by exact Hfit.
        split; [exact Hpt | exact Ha].
      * intros t [Htl Htp]. split; [exact Htl|].
        destruct Htp as [Htc | [Htpt Hta]]; [left; exact Htc | right].
        rewrite length_replace_nth. split; [exact Htpt|].
        destruct (Nat.eq_dec (ptr t) (ptr s)) as [Heq | Hne].
        -- rewrite Heq, nth_replace_nth_same by exact Hpt.
           rewrite length_write_cells by exact Hfit. unfold arr. rewrite <- Heq. exact Hta.
        -- rewrite nth_replace_nth_other by exact Hne. exact Hta.
    + (* no array: nothing is stored *)
      assert (Harr0 : arr = []) by (unfold arr; apply nth_overflow; exact Hpt).
      assert (Hl0x : len s = 0%nat /\ xs = []).
      { destruct Harr as [H | [_ [H1 H2]]]; [| auto].
        rewrite Harr0 in H. simpl in H.
        split; [lia | destruct xs; [reflexivity | simpl in H; lia]]. }
      destruct Hl0x as [Hl0 ->].
      assert (Hr : replace_nth h (ptr s) (write_cells arr (len s) []) = h)
        by (apply replace_nth_overflow; exact Hpt).
      rewrite Hr. unfold read; simpl. rewrite Hl0. simpl.
      split; [reflexivity|]. split; [reflexivity|].
      split; [split; simpl; [lia | left; lia] | auto].
  - (* reallocation *)
    set (n := (len s + List.length xs)%nat).
    set (nc := grow (cap s) n).
    assert (Hnc : (n <= nc)%nat) by apply grow_enough.
    assert (Hrl : List.length (read h s) = len s) by (apply length_read; exact Hwf).
    assert (Hold : forall t, wf_slice h t -> read (h ++ [read h s ++ map Some xs ++ repeat None (nc - n)]) t = read h t).
    { intros t [Htl [Htc | [Htpt _]]]; unfold read.
      - assert (len t = 0%nat) as -> by lia. reflexivity.
      - rewrite app_nth1 by exact Htpt. reflexivity. }
    split; [apply Hold; exact Hwf|].
    unfold read at 1; simpl.
    rewrite nth_middle.
    split.
    + rewrite app_assoc, firstn_app.
      assert (Hl : List.length (read h s ++ map Some xs) = n)
        by (unfold n; rewrite length_app, length_map, Hrl; reflexivity).
      rewrite Hl, Nat.sub_diag, firstn_O, app_nil_r.
      rewrite <- Hl, firstn_all. reflexivity.
    + split.
      * split; [simpl; exact Hnc|]. right. simpl.
        rewrite length_app. simpl. split; [lia|].
        rewrite nth_middle, !length_app, length_map, repeat_length, Hrl.
        unfold n in *. lia.
      * intros t [Htl [Htc | [Htpt Hta]]]; split; auto.
        right. rewrite length_app. simpl. split; [lia|].
        rewrite app_nth1 by exact Htpt. exact Hta.
Qed.

End SliceLemmas.

Lemma go_grow_enough (oldcap needed : nat) : (needed <= go_grow oldcap needed)%nat.
Proof. unfold go_grow. destruct (Nat.ltb_spec (2 * oldcap) needed); lia. Qed.

(** C5. [mergeCriteria] on slices is all-or-nothing: whatever its outcome,
    the elements of the existing slice read as before; it fails exactly
    when the merge of the existing criteria with the incoming ones fails
    (duplicate key or invalid incoming criterion); on success the returned
    slice holds the existing criteria followed by all incoming ones. *)
Theorem mergeCriteriaH_all_or_nothing (grow : nat -> nat -> nat)
  (isNumeric isDateTime : string -> bool) (h : Heap) (c1 : Slice) (c2 : list Criterion)
  (Hg : forall oldcap needed, (needed <= grow oldcap needed)%nat)
  (Hwf : wf_slice h c1) :
  let '(h', r) := mergeCriteriaH grow isNumeric isDateTime h c1 c2 in
  read h' c1 = read h c1 /\
  mergeCriteria isNumeric isDateTime (cells (read h c1)) c2 =
    match r with Ok s => Ok (cells (read h' s)) | Err e => Err e end /\
  (forall s, r = Ok s -> read h' s = (read h c1 ++ map Some c2)%list).
Proof.
  unfold mergeCriteriaH.
  pose proof (append_spec grow Hg h c1 c2 Hwf) as A1.
  destruct (append grow h c1 c2) as [h1 all] eqn:E1.
  destruct A1 as [R1 [Rall [Wall Wpres]]].
  rewrite Rall, cells_app, cells_map_Some.
  unfold mergeCriteria.
  destruct (merge_loop isNumeric isDateTime (cells (read h c1) ++ c2)%list c2) as [e|] eqn:Em.
  - split; [exact R1|]. split; [reflexivity | discriminate].
  - pose proof (append_spec grow Hg h1 c1 c2 (Wpres c1 Hwf)) as A2.
    destruct (append grow h1 c1 c2) as [h2 res] eqn:E2.
    destruct A2 as [R2 [Rres _]].
    split; [rewrite R2; exact R1|].
    rewrite Rres, R1, cells_app, cells_map_Some.
    split; [reflexivity|].
    intros s Hs. injection Hs as <-. rewrite Rres, R1. reflexivity.
Qed.

(** ** Strings *)

Lemma string_length_append (s1 s2 : string) :
  String.length (s1 ++ s2) = (String.length s1 + String.length s2)%nat.
Proof. induction s1 as [|a s1 IH]; simpl; auto. Qed.

Lemma last_byte_snoc (s : string) (c : ascii) :
  last_byte (s ++ String c EmptyString) = Some c.
Proof.
  unfold last_byte, byte_at. rewrite string_length_append. simpl.
  rewrite Nat.add_sub. induction s as [|a s IH]; simpl; auto.
Qed.

Lemma drop_last_snoc (s : string) (c : ascii) :
  drop_last (s ++ String c EmptyString) = s.
Proof.
  unfold drop_last. rewrite string_length_append. simpl.
  rewrite Nat.add_sub. induction s as [|a s IH]; simpl; auto.
  now rewrite IH.
Qed.

Lemma string_snoc_decomp (s : string) :
  s <> EmptyString -> exists s' c, s = s' ++ String c EmptyString.
Proof.
  induction s as [|a s IH]; intros Hne; [contradiction|].
  destruct s as [|b s0].
  - exists EmptyString, a. reflexivity.
  - destruct IH as [s' [c Hs]]; [discriminate|].
    exists (String a s'), c. rewrite Hs. reflexivity.
Qed.

(** A non-empty string whose last byte is [c] is its prefix followed by [c]. *)
Lemma last_byte_split (s : string) (c : ascii) :
  s <> EmptyString -> last_byte s = Some c -> s = drop_last s ++ String c EmptyString.
Proof.
  intros Hne Hl. destruct (string_snoc_decomp s Hne) as [s' [c' ->]].
  rewrite last_byte_snoc in Hl. injection Hl as ->.
  now rewrite drop_last_snoc.
Qed.

Lemma snoc_not_empty (s : string) (c : ascii) : s ++ String c EmptyString <> EmptyString.
Proof. destruct s; discriminate. Qed.

Lemma is_byte_some (o : option ascii) (c : ascii) : is_byte o c = true <-> o = Some c.
Proof.
  destruct o as [b|]; simpl; [|split; discriminate].
  rewrite Ascii.eqb_eq. split; [intros ->; reflexivity | congruence].
Qed.

Lemma strip_brackets_wrap_multi (x : string) (rest : list string) :
  rest <> [] ->
  strip_brackets (String OpenBracket x ::
                  app (removelast rest)
                      [String.append (last rest "") (String CloseBracket EmptyString)])
  = Ok (x :: rest).
Proof.
  intros Hrne. unfold strip_brackets. cbv beta iota zeta.
  rewrite Ascii.eqb_refl, app_comm_cons, last_last.
  destruct (last rest "" ++ String CloseBracket EmptyString) as [|z zs] eqn:Hl.
  - exfalso. exact (snoc_not_empty _ _ Hl).
  - rewrite <- Hl, last_byte_snoc. simpl is_byte.
    rewrite drop_last_snoc, removelast_last, <- app_comm_cons.
    rewrite <- (app_removelast_last "" Hrne). reflexivity.
Qed.

(** ** Brackets of multivariate operands *)

(** On a non-empty element list, the bracket check of [findRightOp] succeeds
    with [r] exactly when the list is [r] in brackets. *)
Lemma strip_brackets_wrap (raw r : list string) :
  raw <> [] -> strip_brackets raw = Ok r <-> raw = wrap_brackets r.
Proof.
  intros Hne. split.
  - destruct raw as [|first tl]; [contradiction|]. unfold strip_brackets.
    destruct first as [|b first']; [discriminate|].
    cbv beta iota zeta.
    destruct (Ascii.eqb_spec b OpenBracket) as [-> | Hb]; [|discriminate].
    remember (last (first' :: tl) "") as lastE eqn:HlastE.
    destruct lastE as [|z zs]; [discriminate|].
    destruct (is_byte (last_byte (String z zs)) CloseBracket) eqn:Hc; [|discriminate].
    apply is_byte_some in Hc.
    assert (Hsplit : String z zs = drop_last (String z zs) ++ String CloseBracket EmptyString)
      by (apply last_byte_split; [discriminate | exact Hc]).
    intros Hr. injection Hr as <-.
    destruct tl as [|y tl'].
    + simpl in HlastE. subst first'. simpl. rewrite <- Hsplit. reflexivity.
    + remember (y :: tl') as tl eqn:Htl.
      assert (Htlne : tl <> []) by (rewrite Htl; discriminate).
      assert (HlastE' : String z zs = last tl "") by (rewrite HlastE, Htl; reflexivity).
      assert (Hrl : removelast (first' :: tl) = first' :: removelast tl)
        by (rewrite Htl; reflexivity).
      try rewrite Hrl. simpl app.
      unfold wrap_brackets.
      destruct (removelast tl ++ [drop_last (String z zs)])%list as [|u us] eqn:Hu.
      { destruct (removelast tl); discriminate. }
      rewrite <- Hu.
      rewrite removelast_last, last_last.
      rewrite <- Hsplit, HlastE'.
      rewrite <- (app_removelast_last "" Htlne). reflexivity.
  - intros ->. destruct r as [|x rest]; [contradiction|].
    destruct rest as [|y rest'].
    + simpl.
      destruct (x ++ String CloseBracket EmptyString) as [|z zs] eqn:Hx.
      * exfalso. exact (snoc_not_empty x CloseBracket Hx).
      * rewrite <- Hx, last_byte_snoc. simpl is_byte.
        rewrite drop_last_snoc. reflexivity.
    + exact (strip_brackets_wrap_multi x (y :: rest') ltac:(discriminate)).
Qed.

(** C3 (as the code has it). [status in [a||b||c]] yields the operands
    [a], [b], [c] and [status in a] is rejected. In general, for a
    multivariate operator, with [acc], [buf] and [offset] the state the scan
    of the operand text ends in: the operand text succeeds with [r] exactly
    when its element list is empty (then [r = [""]]) or is [r] in brackets,
    the first element opening with [[] and the last closing with []]. *)
Theorem findRightOp_brackets_exact :
  process isNumeric_int isDateTime_none "status in [a||b||c]" FieldQuery
    = Ok [ByField InOperator "status" ["a"; "b"; "c"]] /\
  process isNumeric_int isDateTime_none "status in a" FieldQuery
    = Err UnsupportedQueryError /\
  (forall (remaining leftOp : string) (op : Operator) (t : CriterionType)
          (acc : list string) (buf : string) (offset : nat)
          (r : list string) (off : nat),
     IsMultiVariate op = true ->
     scan remaining remaining 0 "" [] = Ok (acc, buf, offset) ->
     (findRightOp remaining leftOp op t = Ok (r, off) <->
      off = offset /\
      ((close_buffer acc buf = [] /\ r = [""]) \/
       (close_buffer acc buf <> [] /\ close_buffer acc buf = wrap_brackets r)))).
Proof.
  split; [vm_compute; reflexivity|].
  split; [vm_compute; reflexivity|].
  intros remaining leftOp op t acc buf offset r off Hmv Hscan.
  unfold findRightOp. rewrite Hscan. cbv zeta. rewrite Hmv, andb_true_r.
  destruct (close_buffer acc buf) as [|x xs] eqn:Hraw.
  - simpl. split.
    + intros H. injection H as <- <-. auto.
    + intros [-> [[_ ->] | [C _]]]; [reflexivity | contradiction].
  - replace (0 <? List.length (x :: xs))%nat with true by reflexivity. cbv beta iota.
    destruct (strip_brackets (x :: xs)) as [r'|e] eqn:Hs.
    + assert (Hw : x :: xs = wrap_brackets r')
        by (apply (strip_brackets_wrap (x :: xs) r'); [discriminate | exact Hs]).
      destruct r' as [|r0 rs']; [discriminate|].
      simpl. split.
      * intros H. injection H as <- <-. split; [reflexivity|]. right. split; [discriminate | exact Hw].
      * intros [-> [[C _] | [_ Hw']]]; [discriminate|].
        apply (strip_brackets_wrap (x :: xs) r) in Hw'; [|discriminate].
        rewrite Hs in Hw'. injection Hw' as ->. reflexivity.
    + split; [discriminate|].
      intros [_ [[C _] | [_ Hw']]]; [discriminate|].
      apply (strip_brackets_wrap (x :: xs) r) in Hw'; [|discriminate].
      congruence.
Qed.

(** ** The segment loop on a key followed by an operator *)

Lemma substring_0_length (s : string) : substring 0 (String.length s) s = s.
Proof. induction s as [|a s IH]; simpl; [reflexivity | now rewrite IH]. Qed.

Lemma substring_0_length_app (k p : string) : substring 0 (String.length k) (k ++ p) = k.
Proof. induction k as [|a k IH]; simpl; [now destruct p | now rewrite IH]. Qed.

Lemma slice_from_app_length (k p : string) : slice_from (k ++ p) (String.length k) = p.
Proof.
  unfold slice_from. rewrite string_length_append.
  replace (String.length k + String.length p - String.length k)%nat
    with (String.length p) by lia.
  induction k as [|a k IH]; simpl; [apply substring_0_length | exact IH].
Qed.

Lemma slice_from_length (s : string) : slice_from s (String.length s) = EmptyString.
Proof.
  unfold slice_from. rewrite Nat.sub_diag.
  induction s as [|a s IH]; simpl; [reflexivity | exact IH].
Qed.

Lemma slice_from_get (s : string) (i : nat) :
  (i < String.length s)%nat ->
  exists c rest, slice_from s i = String c rest /\ String.get i s = Some c.
Proof.
  unfold slice_from. revert i.
  induction s as [|a s IH]; intros i Hi; simpl in Hi; [lia|].
  destruct i as [|i].
  - exists a, (substring 0 (String.length s) s). split; reflexivity.
  - destruct (IH i ltac:(lia)) as [c [rest [Hs Hg]]].
    exists c, rest. split; [exact Hs | exact Hg].
Qed.

Lemma get_no_char (k : string) (i : nat) (c ch : ascii) :
  contains_char ch k = false -> String.get i k = Some c -> c <> ch.
Proof.
  revert i. induction k as [|a k IH]; intros i Hk Hg; [discriminate|].
  simpl in Hk. apply orb_false_iff in Hk as [Ha Hk].
  destruct i as [|i]; simpl in Hg.
  - injection Hg as <-. intros ->. now rewrite Ascii.eqb_refl in Ha.
  - exact (IH i Hk Hg).
Qed.

Lemma prefix_cons (a b : ascii) (s1 s2 : string) :
  String.prefix (String a s1) (String b s2)
  = if ascii_dec a b then String.prefix s1 s2 else false.
Proof. reflexivity. Qed.

Lemma match_operator_other_start (ops : list Operator) (c : ascii) (rest : string) :
  c <> OperandSeparator -> match_operator ops (String c rest) = None.
Proof.
  intros Hc. induction ops as [|op ops IH]; cbn [match_operator]; [reflexivity|].
  unfold op_pattern. rewrite prefix_cons.
  destruct (ascii_dec OperandSeparator c) as [E|_]; [congruence | exact IH].
Qed.

Lemma match_operator_pattern (op : Operator) :
  In op operators -> match_operator operators (op_pattern op) = Some op.
Proof. intros Hop. destruct op; simpl in Hop; intuition discriminate. Qed.

Section TrailingOperator.

Variable isNumeric : string -> bool.
Variable isDateTime : string -> bool.
Variable input : string.
Variable criteriaType : CriterionType.
Variable L : nat.
Hypothesis HL : (L < String.length input)%nat.
Hypothesis Hnone : forall m, (m < L)%nat -> match_operator operators (slice_from input m) = None.

(** Before the key ends, no operator pattern is found and the loop only
    advances [i]. *)
Lemma process_loop_key (d f i : nat) :
  (i + d = L)%nat ->
  process_loop isNumeric isDateTime (f + d) input criteriaType i 0 "" None []
  = process_loop isNumeric isDateTime f input criteriaType L 0 "" None [].
Proof.
  revert i. induction d as [|d IH]; intros i Hi.
  - rewrite Nat.add_0_r. replace i with L by lia. reflexivity.
  - rewrite Nat.add_succ_r. cbn [process_loop].
    replace (i <? String.length input)%nat with true by (symmetry; apply Nat.ltb_lt; lia).
    rewrite (Hnone i ltac:(lia)).
    apply IH. lia.
Qed.

End TrailingOperator.

Lemma findRightOp_empty (leftOp : string) (op : Operator) (t : CriterionType) :
  findRightOp "" leftOp op t = Ok ([""], 0%nat).
Proof. reflexivity. Qed.

Lemma op_pattern_length (op : Operator) :
  String.length (op_pattern op) = (String.length (op_token op) + 2)%nat.
Proof. unfold op_pattern. simpl. rewrite string_length_append. simpl. lia. Qed.

Lemma no_operator_in_key (k p : string) :
  contains_char OperandSeparator k = false ->
  forall m, (m < String.length k)%nat ->
  match_operator operators (slice_from (k ++ p) m) = None.
Proof.
  intros Hsp m Hm.
  assert (Hm' : (m < String.length (k ++ p))%nat) by (rewrite string_length_append; lia).
  destruct (slice_from_get (k ++ p) m Hm') as [c [rest [Hs Hg]]].
  rewrite Hs. apply match_operator_other_start.
  rewrite <- (String.append_correct1 k p m Hm) in Hg.
  exact (get_no_char k m c OperandSeparator Hsp Hg).
Qed.

(** C10 (amended). A query made of a key without spaces followed by an
    operator pattern and nothing else is closed with the right operands
    [[""]]; the parse then succeeds with that one criterion exactly when
    [Validate] accepts it, and fails with the validation error otherwise. *)
Theorem process_trailing_operator (isNumeric isDateTime : string -> bool)
  (k : string) (op : Operator) (t : CriterionType)
  (Hk : k <> EmptyString) (Hsp : contains_char OperandSeparator k = false)
  (Hop : In op operators) :
  process isNumeric isDateTime (k ++ op_pattern op) t =
  match Validate isNumeric isDateTime (newCriterion k op [""] t) with
  | None => Ok [newCriterion k op [""] t]
  | Some e => Err e
  end.
Proof.
  assert (Hlen : String.length (k ++ op_pattern op)
                 = (String.length k + String.length (op_token op) + 2)%nat)
    by (rewrite string_length_append, op_pattern_length; lia).
  unfold process.
  replace (String.eqb (k ++ op_pattern op) "") with false
    by (destruct k; [contradiction | reflexivity]).
  rewrite Hlen.
  replace (String.length k + String.length (op_token op) + 2)%nat
    with (S (S (String.length (op_token op))) + String.length k)%nat by lia.
  rewrite (process_loop_key isNumeric isDateTime (k ++ op_pattern op) t (String.length k)
             ltac:(lia) (no_operator_in_key k (op_pattern op) Hsp)
             (String.length k) _ 0 eq_refl).
  cbn [process_loop].
  replace (String.length k <? String.length (k ++ op_pattern op))%nat with true
    by (symmetry; apply Nat.ltb_lt; lia).
  rewrite slice_from_app_length, match_operator_pattern by exact Hop.
  replace (String.length k <? 0)%nat with false by (symmetry; apply Nat.ltb_ge; lia).
  rewrite Nat.sub_0_r, substring_0_length_app.
  cbn [process_loop].
  replace (S (String.length k) <? String.length (k ++ op_pattern op))%nat with true
    by (symmetry; apply Nat.ltb_lt; lia).
  replace (negb (String.eqb k "")) with true
    by (destruct k; [contradiction | reflexivity]).
  replace (String.length (k ++ op_pattern op)
           <? S (String.length k) + String.length (op_token op) + 1)%nat with false
    by (symmetry; apply Nat.ltb_ge; lia).
  replace (S (String.length k) + String.length (op_token op) + 1)%nat
    with (String.length (k ++ op_pattern op)) by lia.
  rewrite slice_from_length, findRightOp_empty.
  cbv beta iota zeta.
  destruct (Validate isNumeric isDateTime (newCriterion k op [""] t)); [reflexivity|].
  destruct (String.length (op_token op)) as [|T]; [reflexivity|].
  cbn [process_loop].
  replace (S (S (String.length k) + 0 + S T + 1) <? String.length (k ++ op_pattern op))%nat
    with false by (symmetry; apply Nat.ltb_ge; lia).
  reflexivity.
Qed.

(** ** Instances of the theorems on concrete inputs *)

Lemma validate_rejects_many_operands_witness :
  Typ (ByField EqualsOperator "x" ["a"; "b"]) <> ResultQuery /\
  IsMultiVariate (Oper (ByField EqualsOperator "x" ["a"; "b"])) = false /\
  (1 < List.length (RightOp (ByField EqualsOperator "x" ["a"; "b"])))%nat /\
  Validate isNumeric_int isDateTime_none (ByField EqualsOperator "x" ["a"; "b"])
    = Some UnsupportedQueryError.
Proof.
  assert (Ht : Typ (ByField EqualsOperator "x" ["a"; "b"]) <> ResultQuery) by discriminate.
  assert (Hm : IsMultiVariate (Oper (ByField EqualsOperator "x" ["a"; "b"])) = false)
    by reflexivity.
  assert (Hl : (1 < List.length (RightOp (ByField EqualsOperator "x" ["a"; "b"])))%nat)
    by (simpl; lia).
  split; [exact Ht|]. split; [exact Hm|]. split; [exact Hl|].
  exact (validate_rejects_many_operands isNumeric_int isDateTime_none
           (ByField EqualsOperator "x" ["a"; "b"]) Ht Hm Hl).
Defined.

Lemma validate_result_query_exact_witness :
  Typ (newCriterion Limit NoOperator ["0"] ResultQuery) = ResultQuery /\
  (LeftOp (newCriterion Limit NoOperator ["0"] ResultQuery) = Limit ->
   RightOp (newCriterion Limit NoOperator ["0"] ResultQuery) <> []) /\
  (Validate isNumeric_int isDateTime_none (newCriterion Limit NoOperator ["0"] ResultQuery)
     <> None <->
   (LeftOp (newCriterion Limit NoOperator ["0"] ResultQuery) = Limit /\
      match Atoi (hd "" (RightOp (newCriterion Limit NoOperator ["0"] ResultQuery))) with
      | Some n => (n < 1)%Z | None => True end) \/
   (LeftOp (newCriterion Limit NoOperator ["0"] ResultQuery) = OrderBy /\
      (List.length (RightOp (newCriterion Limit NoOperator ["0"] ResultQuery)) < 2)%nat)).
Proof.
  assert (Ht : Typ (newCriterion Limit NoOperator ["0"] ResultQuery) = ResultQuery)
    by reflexivity.
  assert (Hl : LeftOp (newCriterion Limit NoOperator ["0"] ResultQuery) = Limit ->
               RightOp (newCriterion Limit NoOperator ["0"] ResultQuery) <> [])
    by (intros _; discriminate).
  split; [exact Ht|]. split; [exact Hl|].
  exact (validate_result_query_exact isNumeric_int isDateTime_none
           (newCriterion Limit NoOperator ["0"] ResultQuery) Ht Hl).
Defined.

Lemma merge_duplicates_per_kind_witness :
  (forall c, In c [Fy] -> Validate isNumeric_int isDateTime_none c = None) /\
  (mergeCriteria isNumeric_int isDateTime_none [Fx] [Fy] = Ok ([Fx] ++ [Fy])%list <->
   (forall c, In c [Fy] -> Typ c <> ResultQuery ->
      (count_key (Typ c) (LeftOp c) ([Fx] ++ [Fy])%list <= 1)%nat)).
Proof.
  assert (Hv : forall c, In c [Fy] -> Validate isNumeric_int isDateTime_none c = None)
    by (intros c [<- | []]; reflexivity).
  split; [exact Hv|].
  exact (proj2 (proj2 (merge_duplicates_per_kind isNumeric_int isDateTime_none)) [Fx] [Fy] Hv).
Defined.

Lemma mergeCriteriaH_all_or_nothing_witness :
  (* an existing slice with a spare cell: the append is done in place *)
  (wf_slice [[Some Fx; None]] (mkSlice 0 1 2) /\
   mergeCriteriaH go_grow isNumeric_int isDateTime_none [[Some Fx; None]] (mkSlice 0 1 2) [Fy]
     = ([[Some Fx; Some Fy]], Ok (mkSlice 0 2 2)) /\
   let '(h', r) :=
     mergeCriteriaH go_grow isNumeric_int isDateTime_none [[Some Fx; None]] (mkSlice 0 1 2) [Fy] in
   read h' (mkSlice 0 1 2) = read [[Some Fx; None]] (mkSlice 0 1 2) /\
   mergeCriteria isNumeric_int isDateTime_none (cells (read [[Some Fx; None]] (mkSlice 0 1 2))) [Fy] =
     match r with Ok s => Ok (cells (read h' s)) | Err e => Err e end /\
   (forall s, r = Ok s -> read h' s = (read [[Some Fx; None]] (mkSlice 0 1 2) ++ map Some [Fy])%list)) /\
  (* a duplicate key: the merge fails after the spare cell was written *)
  (wf_slice [[Some Fx; None]] (mkSlice 0 1 2) /\
   mergeCriteriaH go_grow isNumeric_int isDateTime_none [[Some Fx; None]] (mkSlice 0 1 2) [Fx2]
     = ([[Some Fx; Some Fx2]], Err UnsupportedQueryError) /\
   let '(h', r) :=
     mergeCriteriaH go_grow isNumeric_int isDateTime_none [[Some Fx; None]] (mkSlice 0 1 2) [Fx2] in
   read h' (mkSlice 0 1 2) = read [[Some Fx; None]] (mkSlice 0 1 2) /\
   mergeCriteria isNumeric_int isDateTime_none (cells (read [[Some Fx; None]] (mkSlice 0 1 2))) [Fx2] =
     match r with Ok s => Ok (cells (read h' s)) | Err e => Err e end /\
   (forall s, r = Ok s -> read h' s = (read [[Some Fx; None]] (mkSlice 0 1 2) ++ map Some [Fx2])%list)) /\
  (* a full slice of two criteria: the append moves to new arrays *)
  (wf_slice [[Some Fx; Some Fy]] (mkSlice 0 2 2) /\
   snd (mergeCriteriaH go_grow isNumeric_int isDateTime_none [[Some Fx; Some Fy]] (mkSlice 0 2 2) [Fz; Fw])
     = Ok (mkSlice 2 4 4) /\
   let '(h', r) :=
     mergeCriteriaH go_grow isNumeric_int isDateTime_none [[Some Fx; Some Fy]] (mkSlice 0 2 2) [Fz; Fw] in
   read h' (mkSlice 0 2 2) = read [[Some Fx; Some Fy]] (mkSlice 0 2 2) /\
   mergeCriteria isNumeric_int isDateTime_none (cells (read [[Some Fx; Some Fy]] (mkSlice 0 2 2))) [Fz; Fw] =
     match r with Ok s => Ok (cells (read h' s)) | Err e => Err e end /\
   (forall s, r = Ok s ->
      read h' s = (read [[Some Fx; Some Fy]] (mkSlice 0 2 2) ++ map Some [Fz; Fw])%list)).
Proof.
  assert (W1 : wf_slice [[Some Fx; None]] (mkSlice 0 1 2))
    by (split; [simpl; lia | right; simpl; split; [lia | reflexivity]]).
  assert (W2 : wf_slice [[Some Fx; Some Fy]] (mkSlice 0 2 2))
    by (split; [simpl; lia | right; simpl; split; [lia | reflexivity]]).
  split; [|split].
  - split; [exact W1|]. split; [vm_compute; reflexivity|].
    exact (mergeCriteriaH_all_or_nothing go_grow isNumeric_int isDateTime_none
             [[Some Fx; None]] (mkSlice 0 1 2) [Fy] go_grow_enough W1).
  - split; [exact W1|]. split; [vm_compute; reflexivity|].
    exact (mergeCriteriaH_all_or_nothing go_grow isNumeric_int isDateTime_none
             [[Some Fx; None]] (mkSlice 0 1 2) [Fx2] go_grow_enough W1).
  - split; [exact W2|]. split; [vm_compute; reflexivity|].
    exact (mergeCriteriaH_all_or_nothing go_grow isNumeric_int isDateTime_none
             [[Some Fx; Some Fy]] (mkSlice 0 2 2) [Fz; Fw] go_grow_enough W2).
Defined.

Lemma findRightOp_brackets_exact_witness :
  IsMultiVariate InOperator = true /\
  scan "[a||b]" "[a||b]" 0 "" [] = Ok (["[a"], "b]", 6%nat) /\
  (findRightOp "[a||b]" "status" InOperator FieldQuery = Ok (["a"; "b"], 6%nat) <->
   6%nat = 6%nat /\
   ((close_buffer ["[a"] "b]" = [] /\ ["a"; "b"] = [""]) \/
    (close_buffer ["[a"] "b]" <> [] /\ close_buffer ["[a"] "b]" = wrap_brackets ["a"; "b"]))).
Proof.
  assert (Hm : IsMultiVariate InOperator = true) by reflexivity.
  assert (Hs : scan "[a||b]" "[a||b]" 0 "" [] = Ok (["[a"], "b]", 6%nat)) by (vm_compute; reflexivity).
  split; [exact Hm|]. split; [exact Hs|].
  exact (proj2 (proj2 findRightOp_brackets_exact) "[a||b]" "status" InOperator FieldQuery
           ["[a"] "b]" 6%nat ["a"; "b"] 6%nat Hm Hs).
Defined.

Lemma process_trailing_operator_witness :
  "a" <> EmptyString /\ contains_char OperandSeparator "a" = false /\
  In EqualsOperator operators /\
  process isNumeric_int isDateTime_none ("a" ++ op_pattern EqualsOperator) FieldQuery =
  match Validate isNumeric_int isDateTime_none (newCriterion "a" EqualsOperator [""] FieldQuery) with
  | None => Ok [newCriterion "a" EqualsOperator [""] FieldQuery]
  | Some e => Err e
  end.
Proof.
  assert (Hk : "a" <> EmptyString) by discriminate.
  assert (Hs : contains_char OperandSeparator "a" = false) by reflexivity.
  assert (Ho : In EqualsOperator operators) by (simpl; auto).
  split; [exact Hk|]. split; [exact Hs|]. split; [exact Ho|].
  exact (process_trailing_operator isNumeric_int isDateTime_none "a" EqualsOperator FieldQuery
           Hk Hs Ho).
Defined.

(** ** Merge: occurrence counts and composition *)

Lemma ctype_eqb_true (a b : CriterionType) : ctype_eqb a b = true <-> a = b.
Proof. destruct a, b; simpl; split; congruence. Qed.

Lemma count_key_app (t : CriterionType) (k : string) (l1 l2 : list Criterion) :
  count_key t k (l1 ++ l2)%list = (count_key t k l1 + count_key t k l2)%nat.
Proof. unfold count_key. now rewrite filter_app, length_app. Qed.

Lemma count_key_In (c : Criterion) (l : list Criterion) :
  In c l -> (1 <= count_key (Typ c) (LeftOp c) l)%nat.
Proof.
  intros Hin. unfold count_key.
  assert (Hf : In c (filter (fun d => ctype_eqb (Typ d) (Typ c) && String.eqb (LeftOp d) (LeftOp c)) l)).
  { apply filter_In. split; [exact Hin|].
    apply andb_true_iff. split; [apply ctype_eqb_true; reflexivity | apply String.eqb_refl]. }
  destruct (filter _ l); [contradiction | simpl; lia].
Qed.

Lemma count_key_exists (t : CriterionType) (k : string) (l : list Criterion) :
  (1 <= count_key t k l)%nat -> exists d, In d l /\ Typ d = t /\ LeftOp d = k.
Proof.
  unfold count_key. intros H.
  destruct (filter (fun d => ctype_eqb (Typ d) t && String.eqb (LeftOp d) k) l) as [|d ds] eqn:Hf;
    [simpl in H; lia|].
  assert (Hd : In d (d :: ds)) by (left; reflexivity). rewrite <- Hf in Hd.
  apply filter_In in Hd as [Hin Hc]. apply andb_true_iff in Hc as [Ht Hk].
  exists d. split; [exact Hin|]. split; [now apply ctype_eqb_true | now apply String.eqb_eq].
Qed.

Lemma merge_loop_none_iff (isNumeric isDateTime : string -> bool) (all c2 : list Criterion) :
  merge_loop isNumeric isDateTime all c2 = None <->
  (forall c, In c c2 -> merge_ok isNumeric isDateTime all c).
Proof.
  unfold merge_ok.
  induction c2 as [|nc rest IH]; simpl.
  - split; [intros _ c [] | reflexivity].
  - assert (Hcons : forall P : Criterion -> Prop,
               (forall c, nc = c \/ In c rest -> P c) <-> P nc /\ (forall c, In c rest -> P c)).
    { intros P. split.
      - intros H. split; [apply H; left; reflexivity | intros c Hc; apply H; right; exact Hc].
      - intros [H1 H2] c [<- | Hc]; [exact H1 | apply H2; exact Hc]. }
    rewrite Hcons, <- IH.
    destruct (Typ nc) eqn:Ht; simpl; rewrite ?andb_false_r, ?andb_true_r.
    + destruct (Nat.ltb_spec 1 (count_key FieldQuery (LeftOp nc) all)) as [Hc | Hc].
      * split; [discriminate|]. intros [[H _] _]. specialize (H ltac:(discriminate)). lia.
      * destruct (Validate isNumeric isDateTime nc); split.
        -- discriminate.
        -- intros [[_ H] _]. discriminate.
        -- intros Hr. split; [split; [intros _; exact Hc | reflexivity] | exact Hr].
        -- intros [_ Hr]. exact Hr.
    + destruct (Nat.ltb_spec 1 (count_key LabelQuery (LeftOp nc) all)) as [Hc | Hc].
      * split; [discriminate|]. intros [[H _] _]. specialize (H ltac:(discriminate)). lia.
      * simpl. destruct (Validate isNumeric isDateTime nc); split.
        -- discriminate.
        -- intros [[_ H] _]. discriminate.
        -- intros Hr. split; [split; [intros _; exact Hc | reflexivity] | exact Hr].
        -- intros [_ Hr]. exact Hr.
    + destruct (Validate isNumeric isDateTime nc); split.
      * discriminate.
      * intros [[_ H] _]. discriminate.
      * intros Hr. split; [split; [intros Hf; contradiction | reflexivity] | exact Hr].
      * intros [_ Hr]. exact Hr.
Qed.

Lemma mergeCriteria_ok_iff (isNumeric isDateTime : string -> bool) (c1 c2 r : list Criterion) :
  mergeCriteria isNumeric isDateTime c1 c2 = Ok r <->
  r = (c1 ++ c2)%list /\ (forall c, In c c2 -> merge_ok isNumeric isDateTime (c1 ++ c2)%list c).
Proof.
  unfold mergeCriteria. rewrite <- merge_loop_none_iff.
  destruct (merge_loop isNumeric isDateTime (c1 ++ c2)%list c2).
  - split; [discriminate | intros [_ H]; discriminate].
  - split; [intros H; injection H as <-; auto | intros [-> _]; reflexivity].
Qed.

Lemma merge_two_steps_iff (isNumeric isDateTime : string -> bool)
  (c1 a b r : list Criterion) :
  mergeCriteria isNumeric isDateTime c1 (a ++ b)%list = Ok r <->
  exists m, mergeCriteria isNumeric isDateTime c1 a = Ok m /\
            mergeCriteria isNumeric isDateTime m b = Ok r.
Proof.
  rewrite mergeCriteria_ok_iff. split.
  - intros [-> H].
    exists (c1 ++ a)%list. rewrite !mergeCriteria_ok_iff. split.
    + split; [reflexivity|]. intros c Hc.
      destruct (H c (in_or_app _ _ _ (or_introl Hc))) as [Hk Hv].
      split; [|exact Hv]. intros Ht. specialize (Hk Ht).
      rewrite app_assoc, count_key_app in Hk. lia.
    + split; [now rewrite app_assoc|]. intros c Hc.
      rewrite <- app_assoc. apply H. apply in_or_app. right. exact Hc.
  - intros [m [H1 H2]]. rewrite mergeCriteria_ok_iff in H1, H2.
    destruct H1 as [-> H1]. destruct H2 as [-> H2].
    split; [now rewrite app_assoc|].
    intros c Hc. rewrite app_assoc. apply in_app_or in Hc as [Hc | Hc]; [|apply H2; exact Hc].
    destruct (H1 c Hc) as [Hk Hv]. split; [|exact Hv].
    intros Ht. specialize (Hk Ht). rewrite count_key_app.
    destruct (count_key (Typ c) (LeftOp c) b) as [|n] eqn:Hb; [lia|].
    exfalso.
    destruct (count_key_exists (Typ c) (LeftOp c) b ltac:(lia)) as [d [Hd [Htd Hkd]]].
    destruct (H2 d Hd) as [Hk2 _].
    rewrite Htd, Hkd in Hk2. specialize (Hk2 Ht).
    rewrite count_key_app in Hk2.
    pose proof (count_key_In c (c1 ++ a)%list (in_or_app _ _ _ (or_intror Hc))).
    lia.
Qed.

(** Adding [a] and then [b] to a criteria set succeeds exactly when adding
    [a ++ b] at once does, and with the same result. *)
Theorem mergeCriteria_two_steps (isNumeric isDateTime : string -> bool)
  (c1 a b r : list Criterion) :
  mergeCriteria isNumeric isDateTime c1 (a ++ b)%list = Ok r <->
  exists m, mergeCriteria isNumeric isDateTime c1 a = Ok m /\
            mergeCriteria isNumeric isDateTime m b = Ok r.
Proof. exact (merge_two_steps_iff isNumeric isDateTime c1 a b r). Qed.

(** ** The OIDC label criteria filter *)

(** [mergeCriteria] on slices, with the well-formedness of headers. *)
Lemma mergeCriteriaH_spec (grow : nat -> nat -> nat)
  (isNumeric isDateTime : string -> bool) (h : Heap) (c1 : Slice) (c2 : list Criterion)
  (Hg : forall oldcap needed, (needed <= grow oldcap needed)%nat)
  (Hwf : wf_slice h c1) :
  let '(h', r) := mergeCriteriaH grow isNumeric isDateTime h c1 c2 in
  (forall t, wf_slice h t -> wf_slice h' t) /\
  match r with
  | Ok s =>
      read h' s = (read h c1 ++ map Some c2)%list /\ wf_slice h' s /\
      mergeCriteria isNumeric isDateTime (cells (read h c1)) c2
        = Ok (cells (read h c1) ++ c2)%list
  | Err e => mergeCriteria isNumeric isDateTime (cells (read h c1)) c2 = Err e
  end.
Proof.
  unfold mergeCriteriaH.
  pose proof (append_spec grow Hg h c1 c2 Hwf) as A1.
  destruct (append grow h c1 c2) as [h1 all] eqn:E1.
  destruct A1 as [R1 [Rall [Wall Wpres]]].
  rewrite Rall, cells_app, cells_map_Some.
  unfold mergeCriteria.
  destruct (merge_loop isNumeric isDateTime (cells (read h c1) ++ c2)%list c2) as [e|] eqn:Em.
  - split; [exact Wpres | reflexivity].
  - pose proof (append_spec grow Hg h1 c1 c2 (Wpres c1 Hwf)) as A2.
    destruct (append grow h1 c1 c2) as [h2 res] eqn:E2.
    destruct A2 as [R2 [Rres [Wres Wpres2]]].
    split; [intros t Ht; exact (Wpres2 t (Wpres t Ht))|].
    rewrite Rres, R1. split; [reflexivity|]. split; [exact Wres | reflexivity].
Qed.

Lemma mergeCriteria_nil (isNumeric isDateTime : string -> bool) (c1 : list Criterion) :
  mergeCriteria isNumeric isDateTime c1 [] = Ok (c1 ++ [])%list.
Proof. reflexivity. Qed.

Lemma run_loop_spec (grow : nat -> nat -> nat) (isNumeric isDateTime : string -> bool)
  (Hg : forall oldcap needed, (needed <= grow oldcap needed)%nat)
  (claims groups : list (string * string)) :
  forall (h : Heap) (ctx : Context),
  wf_slice h (CriteriaForContext ctx) ->
  match Filters.run_loop grow isNumeric isDateTime claims groups h ctx with
  | (h', Filters.Next ctx') =>
      read h' (CriteriaForContext ctx') =
        (read h (CriteriaForContext ctx) ++ map Some (run_criteria claims groups))%list /\
      exists r, mergeCriteria isNumeric isDateTime (cells (read h (CriteriaForContext ctx)))
                  (run_criteria claims groups) = Ok r
  | (_, Filters.Fail) =>
      forall r, mergeCriteria isNumeric isDateTime (cells (read h (CriteriaForContext ctx)))
                  (run_criteria claims groups) <> Ok r
  end.
Proof.
  induction groups as [|[claimKey labelKey] rest IH]; intros h ctx Hwf; simpl.
  - split; [now rewrite app_nil_r|]. eexists. apply mergeCriteria_nil.
  - set (crit := ByLabel EqualsOperator labelKey [Filters.claim claims claimKey]).
    unfold AddCriteria.
    pose proof (mergeCriteriaH_spec grow isNumeric isDateTime h (CriteriaForContext ctx) [crit] Hg Hwf)
      as Hm.
    destruct (mergeCriteriaH grow isNumeric isDateTime h (CriteriaForContext ctx) [crit])
      as [h1 [s|e]].
    + destruct Hm as [_ [Hread [Hwf1 Hmerge]]].
      specialize (IH h1 (ContextWithCriteria ctx s) Hwf1).
      destruct (Filters.run_loop grow isNumeric isDateTime claims rest h1 (ContextWithCriteria ctx s))
        as [h2 [ctx2|]].
      * destruct IH as [Hr [r Hrest]].
        simpl in Hr, Hrest. rewrite Hread in Hr, Hrest.
        rewrite cells_app, cells_map_Some in Hrest.
        split; [rewrite Hr, <- app_assoc; reflexivity|].
        exists r. change (crit :: run_criteria claims rest) with ([crit] ++ run_criteria claims rest)%list.
        apply merge_two_steps_iff. exists (cells (read h (CriteriaForContext ctx)) ++ [crit])%list.
        split; [exact Hmerge | exact Hrest].
      * intros r Hr. simpl in IH. rewrite Hread, cells_app, cells_map_Some in IH.
        change (crit :: run_criteria claims rest) with ([crit] ++ run_criteria claims rest)%list in Hr.
        apply merge_two_steps_iff in Hr as [m [H1 H2]].
        rewrite Hmerge in H1. injection H1 as <-.
        exact (IH r H2).
    + destruct Hm as [_ Hmerge].
      intros r Hr.
      change (crit :: run_criteria claims rest) with ([crit] ++ run_criteria claims rest)%list in Hr.
      apply merge_two_steps_iff in Hr as [m [H1 _]].
      congruence.
Qed.

(** [OIDCLabelCriteriaFilter.Run] with decoded token claims adds one label
    criterion [labelKey = claims[claimKey]] per group, one [AddCriteria] at a
    time. It hands the request on exactly when adding all of them to the
    request's criteria at once would succeed, and the context it hands on
    reads as the old criteria followed by the new ones. *)
Theorem Run_adds_label_criteria (grow : nat -> nat -> nat)
  (isNumeric isDateTime : string -> bool)
  (Hg : forall oldcap needed, (needed <= grow oldcap needed)%nat)
  (claims groups : list (string * string)) (h : Heap) (ctx : Context)
  (Hwf : wf_slice h (CriteriaForContext ctx)) :
  let old := read h (CriteriaForContext ctx) in
  let news := run_criteria claims groups in
  match Filters.Run grow isNumeric isDateTime groups (Some (Filters.TokenData (Some claims))) h ctx with
  | (h', Filters.Next ctx') =>
      read h' (CriteriaForContext ctx') = (old ++ map Some news)%list /\
      mergeCriteria isNumeric isDateTime (cells old) news = Ok (cells old ++ news)%list
  | (_, Filters.Fail) =>
      exists e, mergeCriteria isNumeric isDateTime (cells old) news = Err e
  end.
Proof.
  cbv zeta. unfold Filters.Run.
  pose proof (run_loop_spec grow isNumeric isDateTime Hg claims groups h ctx Hwf) as Hs.
  destruct (Filters.run_loop grow isNumeric isDateTime claims groups h ctx) as [h' [ctx'|]].
  - destruct Hs as [Hr [r Hm]]. split; [exact Hr|].
    rewrite Hm. apply mergeCriteria_ok_iff in Hm as [-> _]. reflexivity.
  - destruct (mergeCriteria isNumeric isDateTime (cells (read h (CriteriaForContext ctx)))
                (run_criteria claims groups)) as [r|e] eqn:Hm.
    + exfalso. exact (Hs r eq_refl).
    + exists e; reflexivity.
Qed.

Lemma Run_adds_label_criteria_witness :
  (* two groups added to a context holding one field criterion *)
  (wf_slice [[Some Fx; None]] (CriteriaForContext (Some (mkSlice 0 1 2))) /\
   snd (Filters.Run go_grow isNumeric_int isDateTime_none [("zid", "tenant"); ("org", "org_id")]
          (Some (Filters.TokenData (Some [("zid", "t1"); ("org", "o1")])))
          [[Some Fx; None]] (Some (mkSlice 0 1 2)))
     = Filters.Next (Some (mkSlice 2 3 4)) /\
   match Filters.Run go_grow isNumeric_int isDateTime_none [("zid", "tenant"); ("org", "org_id")]
           (Some (Filters.TokenData (Some [("zid", "t1"); ("org", "o1")])))
           [[Some Fx; None]] (Some (mkSlice 0 1 2)) with
   | (h', Filters.Next ctx') =>
       read h' (CriteriaForContext ctx') =
         (read [[Some Fx; None]] (CriteriaForContext (Some (mkSlice 0 1 2))) ++
          map Some (run_criteria [("zid", "t1"); ("org", "o1")] [("zid", "tenant"); ("org", "org_id")]))%list /\
       mergeCriteria isNumeric_int isDateTime_none
         (cells (read [[Some Fx; None]] (CriteriaForContext (Some (mkSlice 0 1 2)))))
         (run_criteria [("zid", "t1"); ("org", "o1")] [("zid", "tenant"); ("org", "org_id")])
       = Ok (cells (read [[Some Fx; None]] (CriteriaForContext (Some (mkSlice 0 1 2)))) ++
             run_criteria [("zid", "t1"); ("org", "o1")] [("zid", "tenant"); ("org", "org_id")])%list
   | (_, Filters.Fail) =>
       exists e, mergeCriteria isNumeric_int isDateTime_none
                   (cells (read [[Some Fx; None]] (CriteriaForContext (Some (mkSlice 0 1 2)))))
                   (run_criteria [("zid", "t1"); ("org", "o1")] [("zid", "tenant"); ("org", "org_id")])
                 = Err e
   end) /\
  (* two groups naming the same label key: the second [AddCriteria] fails *)
  (wf_slice [[Some Fx; None]] (CriteriaForContext (Some (mkSlice 0 1 2))) /\
   snd (Filters.Run go_grow isNumeric_int isDateTime_none [("zid", "tenant"); ("sub", "tenant")]
          (Some (Filters.TokenData (Some [("zid", "t1"); ("sub", "u1")])))
          [[Some Fx; None]] (Some (mkSlice 0 1 2)))
     = Filters.Fail /\
   match Filters.Run go_grow isNumeric_int isDateTime_none [("zid", "tenant"); ("sub", "tenant")]
           (Some (Filters.TokenData (Some [("zid", "t1"); ("sub", "u1")])))
           [[Some Fx; None]] (Some (mkSlice 0 1 2)) with
   | (h', Filters.Next ctx') =>
       read h' (CriteriaForContext ctx') =
         (read [[Some Fx; None]] (CriteriaForContext (Some (mkSlice 0 1 2))) ++
          map Some (run_criteria [("zid", "t1"); ("sub", "u1")] [("zid", "tenant"); ("sub", "tenant")]))%list /\
       mergeCriteria isNumeric_int isDateTime_none
         (cells (read [[Some Fx; None]] (CriteriaForContext (Some (mkSlice 0 1 2)))))
         (run_criteria [("zid", "t1"); ("sub", "u1")] [("zid", "tenant"); ("sub", "tenant")])
       = Ok (cells (read [[Some Fx; None]] (CriteriaForContext (Some (mkSlice 0 1 2)))) ++
             run_criteria [("zid", "t1"); ("sub", "u1")] [("zid", "tenant"); ("sub", "tenant")])%list
   | (_, Filters.Fail) =>
       exists e, mergeCriteria isNumeric_int isDateTime_none
                   (cells (read [[Some Fx; None]] (CriteriaForContext (Some (mkSlice 0 1 2)))))
                   (run_criteria [("zid", "t1"); ("sub", "u1")] [("zid", "tenant"); ("sub", "tenant")])
                 = Err e
   end).
Proof.
  assert (W : wf_slice [[Some Fx; None]] (CriteriaForContext (Some (mkSlice 0 1 2))))
    by (split; [simpl; lia | right; simpl; split; [lia | reflexivity]]).
  split.
  - split; [exact W|]. split; [vm_compute; reflexivity|].
    exact (Run_adds_label_criteria go_grow isNumeric_int isDateTime_none go_grow_enough
             [("zid", "t1"); ("org", "o1")] [("zid", "tenant"); ("org", "org_id")]
             [[Some Fx; None]] (Some (mkSlice 0 1 2)) W).
  - split; [exact W|]. split; [vm_compute; reflexivity|].
    exact (Run_adds_label_criteria go_grow isNumeric_int isDateTime_none go_grow_enough
             [("zid", "t1"); ("sub", "u1")] [("zid", "tenant"); ("sub", "tenant")]
             [[Some Fx; None]] (Some (mkSlice 0 1 2)) W).
Defined.

(** ** What [process] returns *)

Lemma match_operator_In (ops : list Operator) (s : string) (op : Operator) :
  match_operator ops s = Some op -> In op ops.
Proof.
  induction ops as [|o ops IH]; simpl; [discriminate|].
  destruct (String.prefix (op_pattern o) s).
  - intros [= ->]. now left.
  - intros H. right. exact (IH H).
Qed.

Lemma process_loop_ok (isNumeric isDateTime : string -> bool) (input : string)
  (t : CriterionType) (fuel : nat) :
  forall i j leftOp operator c cs,
  (forall op, operator = Some op -> In op operators) ->
  (forall x, In x c -> parsed_ok isNumeric isDateTime t x) ->
  process_loop isNumeric isDateTime fuel input t i j leftOp operator c = Ok cs ->
  cs <> [] /\ forall x, In x cs -> parsed_ok isNumeric isDateTime t x.
Proof.
  induction fuel as [|fuel IH]; intros i j leftOp operator c cs Hop Hc H.
  - unfold process_loop, process_finish in H.
    destruct c; [discriminate|]. injection H as <-. split; [discriminate|exact Hc].
  - cbn [process_loop] in H. cbv zeta in H.
    assert (Hscan :
      match match_operator operators (slice_from input i) with
      | Some op =>
          if (i <? j)%nat then Err IndexOutOfRange
          else process_loop isNumeric isDateTime fuel input t (S i) j
                 (substring j (i - j) input) (Some op) c
      | None => process_loop isNumeric isDateTime fuel input t (S i) j leftOp operator c
      end = Ok cs -> cs <> [] /\ forall x, In x cs -> parsed_ok isNumeric isDateTime t x).
    { destruct (match_operator operators (slice_from input i)) as [op|] eqn:Em.
      - destruct (i <? j)%nat; [discriminate|].
        apply IH; [|exact Hc]. intros o [= <-]. exact (match_operator_In _ _ _ Em).
      - apply IH; assumption. }
    destruct (i <? String.length input)%nat.
    + destruct operator as [op|]; [|exact (Hscan H)].
      destruct (negb (String.eqb leftOp "")) eqn:El; [|exact (Hscan H)].
      destruct (String.length input <? i + String.length (op_token op) + 1)%nat; [discriminate|].
      destruct (findRightOp _ leftOp op t) as [[rightOp offset]|e]; [|discriminate].
      destruct (Validate isNumeric isDateTime (newCriterion leftOp op rightOp t)) eqn:Ev;
        [discriminate|].
      revert H. apply IH; [discriminate|].
      intros x Hx. apply in_app_or in Hx as [Hx|[<-|[]]]; [exact (Hc x Hx)|].
      apply negb_true_iff, String.eqb_neq in El.
      repeat split; [exact El| exact (Hop op eq_refl) | exact Ev].
    + unfold process_finish in H.
      destruct c; [discriminate|]. injection H as <-. split; [discriminate|exact Hc].
Qed.

(** [process] on an empty segment returns no criteria; on a non-empty one it
    either fails or returns at least one criterion. Every criterion it
    returns has the segment's type, a non-empty key, one of the listed
    operators, and passes [Validate]. *)
Theorem process_ok_criteria (isNumeric isDateTime : string -> bool)
  (input : string) (t : CriterionType) (cs : list Criterion)
  (H : process isNumeric isDateTime input t = Ok cs) :
  (input = "" -> cs = []) /\ (input <> "" -> cs <> []) /\
  forall c, In c cs ->
    Typ c = t /\ LeftOp c <> "" /\ In (Oper c) operators /\
    Validate isNumeric isDateTime c = None.
Proof.
  unfold process in H.
  destruct (String.eqb input "") eqn:E.
  - apply String.eqb_eq in E. injection H as <-.
    split; [reflexivity|]. split; [intros N; contradiction|]. intros c [].
  - apply String.eqb_neq in E.
    destruct (process_loop_ok isNumeric isDateTime input t _ 0 0 "" None [] cs
                ltac:(discriminate) ltac:(intros x []) H) as [Hne Hall].
    split; [intros N; contradiction|]. split; [intros _; exact Hne|].
    exact Hall.
Qed.

Lemma process_ok_criteria_witness :
  process isNumeric_int isDateTime_none "name = foo|count gt 3" FieldQuery
    = Ok [ByField EqualsOperator "name" ["foo"]; ByField GreaterThanOperator "count" ["3"]] /\
  (("name = foo|count gt 3" = "" -> [ByField EqualsOperator "name" ["foo"]; ByField GreaterThanOperator "count" ["3"]] = []) /\
   ("name = foo|count gt 3" <> "" -> [ByField EqualsOperator "name" ["foo"]; ByField GreaterThanOperator "count" ["3"]] <> []) /\
   forall c, In c [ByField EqualsOperator "name" ["foo"]; ByField GreaterThanOperator "count" ["3"]] ->
     Typ c = FieldQuery /\ LeftOp c <> "" /\ In (Oper c) operators /\
     Validate isNumeric_int isDateTime_none c = None).
Proof.
  assert (H : process isNumeric_int isDateTime_none "name = foo|count gt 3" FieldQuery
    = Ok [ByField EqualsOperator "name" ["foo"]; ByField GreaterThanOperator "count" ["3"]])
    by (vm_compute; reflexivity).
  split; [exact H|].
  exact (process_ok_criteria isNumeric_int isDateTime_none _ FieldQuery _ H).
Defined.

Lemma match_operator_pattern_app (op : Operator) (v : string) :
  In op operators -> match_operator operators (op_pattern op ++ v) = Some op.
Proof. intros Hop. destruct op; simpl in Hop; try (intuition discriminate); destruct v; reflexivity. Qed.

Lemma string_app_assoc (a b c : string) : (a ++ b) ++ c = a ++ (b ++ c).
Proof. induction a as [|x a IH]; simpl; [reflexivity | now rewrite IH]. Qed.

Lemma string_app_nil_r (a : string) : a ++ "" = a.
Proof. induction a as [|x a IH]; simpl; [reflexivity | now rewrite IH]. Qed.

Lemma scan_no_separator (rem rest : string) :
  contains_char Separator rest = false ->
  forall offset buf acc,
  scan rem rest offset buf acc = Ok (acc, buf ++ rest, offset + String.length rest)%nat.
Proof.
  induction rest as [|ch rest IH]; intros Hs offset buf acc; simpl.
  - now rewrite string_app_nil_r, Nat.add_0_r.
  - simpl in Hs. apply orb_false_iff in Hs as [Hc Hs].
    rewrite Hc, IH by exact Hs.
    rewrite string_app_assoc, Nat.add_succ_r. reflexivity.
Qed.

Lemma findRightOp_plain (v leftOp : string) (op : Operator) (t : CriterionType) :
  v <> EmptyString -> contains_char Separator v = false -> IsMultiVariate op = false ->
  findRightOp v leftOp op t = Ok ([v], String.length v).
Proof.
  intros Hv Hs Hm. unfold findRightOp. rewrite scan_no_separator by exact Hs.
  unfold close_buffer. simpl.
  replace (0 <? String.length v)%nat with true by (destruct v; [contradiction | reflexivity]).
  simpl. rewrite Hm. reflexivity.
Qed.

Lemma process_loop_no_operator (isNumeric isDateTime : string -> bool)
  (input : string) (t : CriterionType) (fuel : nat) :
  forall i,
  (forall m, (i <= m < String.length input)%nat ->
             match_operator operators (slice_from input m) = None) ->
  process_loop isNumeric isDateTime fuel input t i 0 "" None [] = Err UnsupportedQueryError.
Proof.
  induction fuel as [|fuel IH]; intros i Hn; [reflexivity|].
  cbn [process_loop]. cbv zeta.
  destruct (i <? String.length input)%nat eqn:Ei; [|reflexivity].
  apply Nat.ltb_lt in Ei. rewrite (Hn i ltac:(lia)).
  apply IH. intros m Hm. apply Hn. lia.
Qed.

(** A segment made of a key without spaces, an operator pattern [" op "]
    and a value without separators parses to that one criterion when
    [Validate] accepts it, and fails with the validation error otherwise
    (for a non-multivariate operator). The value is ASCII, so the offset
    [findRightOp] returns counts its bytes. *)
Theorem process_single_criterion (isNumeric isDateTime : string -> bool)
  (k : string) (op : Operator) (v : string) (t : CriterionType)
  (Hk : k <> EmptyString) (Hsp : contains_char OperandSeparator k = false)
  (Hop : In op operators) (Hmv : IsMultiVariate op = false)
  (Hv : v <> EmptyString) (Hs : contains_char Separator v = false)
  (Ha : is_ascii v = true) :
  process isNumeric isDateTime (k ++ op_pattern op ++ v) t =
  match Validate isNumeric isDateTime (newCriterion k op [v] t) with
  | None => Ok [newCriterion k op [v] t]
  | Some e => Err e
  end.
Proof.
  assert (Hlen : String.length (k ++ op_pattern op ++ v)
                 = (String.length k + String.length (op_token op) + 2 + String.length v)%nat)
    by (rewrite !string_length_append, op_pattern_length; lia).
  assert (Hv0 : (0 < String.length v)%nat) by (destruct v; [contradiction | simpl; lia]).
  unfold process.
  replace (String.eqb (k ++ op_pattern op ++ v) "") with false
    by (destruct k; [contradiction | reflexivity]).
  rewrite Hlen.
  replace (String.length k + String.length (op_token op) + 2 + String.length v)%nat
    with (S (S (String.length (op_token op) + String.length v)) + String.length k)%nat by lia.
  rewrite (process_loop_key isNumeric isDateTime (k ++ op_pattern op ++ v) t (String.length k)
             ltac:(lia) (no_operator_in_key k (op_pattern op ++ v) Hsp)
             (String.length k) _ 0 eq_refl).
  cbn [process_loop].
  replace (String.length k <? String.length (k ++ op_pattern op ++ v))%nat with true
    by (symmetry; apply Nat.ltb_lt; lia).
  rewrite slice_from_app_length, match_operator_pattern_app by exact Hop.
  replace (String.length k <? 0)%nat with false by (symmetry; apply Nat.ltb_ge; lia).
  rewrite Nat.sub_0_r, substring_0_length_app.
  cbn [process_loop].
  replace (S (String.length k) <? String.length (k ++ op_pattern op ++ v))%nat with true
    by (symmetry; apply Nat.ltb_lt; lia).
  replace (negb (String.eqb k "")) with true
    by (destruct k; [contradiction | reflexivity]).
  replace (String.length (k ++ op_pattern op ++ v)
           <? S (String.length k) + String.length (op_token op) + 1)%nat with false
    by (symmetry; apply Nat.ltb_ge; lia).
  replace (S (String.length k) + String.length (op_token op) + 1)%nat
    with (String.length (k ++ op_pattern op))
    by (rewrite string_length_append, op_pattern_length; lia).
  replace (slice_from (k ++ op_pattern op ++ v) (String.length (k ++ op_pattern op))) with v
    by (rewrite <- string_app_assoc; symmetry; apply slice_from_app_length).
  rewrite findRightOp_plain by assumption.
  cbv beta iota zeta.
  destruct (Validate isNumeric isDateTime (newCriterion k op [v] t)); [reflexivity|].
  destruct (String.length (op_token op) + String.length v)%nat as [|F] eqn:EF; [lia|].
  cbn [process_loop].
  replace (S (S (String.length k) + String.length v + String.length (op_token op) + 1)
           <? String.length (k ++ op_pattern op ++ v))%nat
    with false by (symmetry; apply Nat.ltb_ge; lia).
  reflexivity.
Qed.

Lemma process_single_criterion_witness :
  "name" <> EmptyString /\ contains_char OperandSeparator "name" = false /\
  In EqualsOperator operators /\ IsMultiVariate EqualsOperator = false /\
  "foo" <> EmptyString /\ contains_char Separator "foo" = false /\ is_ascii "foo" = true /\
  process isNumeric_int isDateTime_none ("name" ++ op_pattern EqualsOperator ++ "foo") FieldQuery =
  match Validate isNumeric_int isDateTime_none (newCriterion "name" EqualsOperator ["foo"] FieldQuery) with
  | None => Ok [newCriterion "name" EqualsOperator ["foo"] FieldQuery]
  | Some e => Err e
  end.
Proof.
  assert (Hk : "name" <> EmptyString) by discriminate.
  assert (Hsp : contains_char OperandSeparator "name" = false) by reflexivity.
  assert (Ho : In EqualsOperator operators) by (simpl; auto).
  assert (Hm : IsMultiVariate EqualsOperator = false) by reflexivity.
  assert (Hv : "foo" <> EmptyString) by discriminate.
  assert (Hs : contains_char Separator "foo" = false) by reflexivity.
  assert (Ha : is_ascii "foo" = true) by reflexivity.
  repeat (split; [assumption|]).
  exact (process_single_criterion isNumeric_int isDateTime_none "name" EqualsOperator "foo" FieldQuery
           Hk Hsp Ho Hm Hv Hs Ha).
Defined.

(** A non-empty segment without a space holds no operator pattern: [process]
    rejects it with an unsupported-query error. *)
Theorem process_rejects_without_space (isNumeric isDateTime : string -> bool)
  (input : string) (t : CriterionType)
  (Hne : input <> EmptyString) (Hsp : contains_char OperandSeparator input = false) :
  process isNumeric isDateTime input t = Err UnsupportedQueryError.
Proof.
  unfold process.
  replace (String.eqb input "") with false by (destruct input; [contradiction | reflexivity]).
  apply process_loop_no_operator. intros m [_ Hm].
  pose proof (no_operator_in_key input "" Hsp m Hm) as H.
  rewrite string_app_nil_r in H. exact H.
Qed.

Lemma process_rejects_without_space_witness :
  "name=foo" <> EmptyString /\ contains_char OperandSeparator "name=foo" = false /\
  process isNumeric_int isDateTime_none "name=foo" FieldQuery = Err UnsupportedQueryError.
Proof.
  assert (Hne : "name=foo" <> EmptyString) by discriminate.
  assert (Hsp : contains_char OperandSeparator "name=foo" = false) by reflexivity.
  split; [exact Hne|]. split; [exact Hsp|].
  exact (process_rejects_without_space isNumeric_int isDateTime_none "name=foo" FieldQuery Hne Hsp).
Defined.

(** ** Result criteria builders *)

Lemma digit_value_char (d : Z) : (0 <= d < 10)%Z -> digit_value (Builders.digit_char d) = Some d.
Proof.
  intros Hd. unfold digit_value, Builders.digit_char.
  rewrite nat_ascii_embedding by lia.
  replace ((48 <=? 48 + Z.to_nat d)%nat && (48 + Z.to_nat d <=? 57)%nat) with true
    by (symmetry; apply andb_true_iff; split; apply Nat.leb_le; lia).
  f_equal. lia.
Qed.

Lemma utoa_digits (f : nat) :
  forall n acc a, (0 <= n < 10 ^ Z.of_nat f)%Z ->
  exists p : nat, digits_value a (Builders.utoa f n acc)
                  = digits_value (a * 10 ^ Z.of_nat p + n)%Z acc.
Proof.
  induction f as [|f IH]; intros n acc a Hn.
  - cbn in Hn. exists 0%nat. cbn [Builders.utoa]. f_equal. lia.
  - cbn [Builders.utoa]. cbv zeta.
    pose proof (Z.mod_pos_bound n 10 ltac:(lia)) as Hm.
    pose proof (Z.div_mod n 10 ltac:(lia)) as Hdm.
    destruct (n <? 10)%Z eqn:E.
    + apply Z.ltb_lt in E. exists 1%nat. cbn [digits_value].
      rewrite digit_value_char by lia. rewrite Z.mod_small by lia.
      f_equal.
    + apply Z.ltb_ge in E.
      rewrite Nat2Z.inj_succ, Z.pow_succ_r in Hn by lia.
      destruct (IH (n / 10)%Z (String (Builders.digit_char (n mod 10)) acc) a) as [p Hp].
      { split; [apply Z.div_pos; lia|]. apply Z.div_lt_upper_bound; lia. }
      exists (S p). rewrite Hp. cbn [digits_value]. rewrite digit_value_char by lia.
      f_equal. rewrite Nat2Z.inj_succ, Z.pow_succ_r by lia.
      remember (10 ^ Z.of_nat p)%Z as P. lia.
Qed.

Lemma utoa_digit_start (f : nat) :
  forall n acc, (0 <= n)%Z -> digit_start acc -> digit_start (Builders.utoa f n acc).
Proof.
  induction f as [|f IH]; intros n acc Hn Hacc; [exact Hacc|].
  cbn [Builders.utoa]. cbv zeta.
  pose proof (Z.mod_pos_bound n 10 ltac:(lia)) as Hm.
  assert (Hs : digit_start (String (Builders.digit_char (n mod 10)) acc))
    by (exists (n mod 10)%Z, acc; split; [lia | reflexivity]).
  destruct (n <? 10)%Z; [exact Hs|].
  apply IH; [apply Z.div_pos; lia | exact Hs].
Qed.

Lemma utoa_S (f : nat) (n : Z) (acc : string) :
  Builders.utoa (S f) n acc =
  if (n <? 10)%Z then String (Builders.digit_char (n mod 10)) acc
  else Builders.utoa f (n / 10) (String (Builders.digit_char (n mod 10)) acc).
Proof. reflexivity. Qed.

Lemma utoa_start (f : nat) (n : Z) (acc : string) :
  (0 <= n)%Z -> digit_start (Builders.utoa (S f) n acc).
Proof.
  intros Hn. rewrite utoa_S.
  pose proof (Z.mod_pos_bound n 10 ltac:(lia)) as Hm.
  assert (Hs : digit_start (String (Builders.digit_char (n mod 10)) acc))
    by (exists (n mod 10)%Z, acc; split; [lia | reflexivity]).
  destruct (n <? 10)%Z; [exact Hs|].
  apply utoa_digit_start; [apply Z.div_pos; lia | exact Hs].
Qed.

Lemma utoa_value (n : Z) : (0 <= n < 10 ^ 20)%Z -> digits_value 0 (Builders.utoa 20 n "") = Some n.
Proof.
  intros Hn. destruct (utoa_digits 20 n "" 0 ltac:(simpl; lia)) as [p Hp].
  rewrite Hp. reflexivity.
Qed.

Lemma Atoi_digit_start (d : Z) (r : string) : (0 <= d < 10)%Z ->
  Atoi (String (Builders.digit_char d) r) =
  match digits_value 0 (String (Builders.digit_char d) r) with
  | None => None
  | Some n => if ((- 2 ^ 63 <=? n) && (n <? 2 ^ 63))%Z then Some n else None
  end.
Proof.
  intros Hd.
  assert (E : (d = 0 \/ d = 1 \/ d = 2 \/ d = 3 \/ d = 4 \/ d = 5 \/ d = 6 \/ d = 7 \/ d = 8 \/ d = 9)%Z)
    by lia.
  repeat destruct E as [-> | E]; try (subst d); reflexivity.
Qed.

Lemma Atoi_Itoa (n : Z) (Hn : (- 2 ^ 63 <= n < 2 ^ 63)%Z) : Atoi (Builders.Itoa n) = Some n.
Proof.
  unfold Builders.Itoa.
  destruct (n <? 0)%Z eqn:En.
  - apply Z.ltb_lt in En.
    destruct (utoa_start 19 (- n) "" ltac:(lia)) as [d [r [Hd Hr]]].
    pose proof (utoa_value (- n) ltac:(lia)) as Hv.
    unfold Atoi. rewrite Hr. rewrite Hr in Hv. rewrite Hv.
    replace (- - n)%Z with n by lia.
    replace ((- 2 ^ 63 <=? n) && (n <? 2 ^ 63))%Z with true
      by (symmetry; apply andb_true_iff; split; [apply Z.leb_le | apply Z.ltb_lt]; lia).
    reflexivity.
  - apply Z.ltb_ge in En.
    destruct (utoa_start 19 n "" En) as [d [r [Hd Hr]]].
    pose proof (utoa_value n ltac:(lia)) as Hv.
    rewrite Hr. rewrite Hr in Hv. rewrite Atoi_digit_start by exact Hd. rewrite Hv.
    replace ((- 2 ^ 63 <=? n) && (n <? 2 ^ 63))%Z with true
      by (symmetry; apply andb_true_iff; split; [apply Z.leb_le | apply Z.ltb_lt]; lia).
    reflexivity.
Qed.

(** [OrderResultBy] always builds a criterion [Validate] accepts. For an
    int64 [n], the criterion built by [LimitResultBy n] is rejected exactly
    when [n] is below 1: the decimal text [strconv.Itoa] writes reads back
    as [n] through [strconv.Atoi]. *)
Theorem result_builders_validate (isNumeric isDateTime : string -> bool)
  (field orderType : string) (n : Z) (Hn : (- 2 ^ 63 <= n < 2 ^ 63)%Z) :
  Validate isNumeric isDateTime (Builders.OrderResultBy field orderType) = None /\
  Validate isNumeric isDateTime (Builders.LimitResultBy n)
    = if (n <? 1)%Z then Some UnsupportedQueryError else None.
Proof.
  split; [reflexivity|].
  unfold Validate, Builders.LimitResultBy, newCriterion.
  cbn [Typ LeftOp RightOp]. rewrite Atoi_Itoa by exact Hn.
  destruct (n <? 1)%Z; reflexivity.
Qed.

Lemma result_builders_validate_witness :
  (- 2 ^ 63 <= 0 < 2 ^ 63)%Z /\
  Validate isNumeric_int isDateTime_none (Builders.OrderResultBy "name" Builders.AscOrder) = None /\
  Validate isNumeric_int isDateTime_none (Builders.LimitResultBy 0)
    = if (0 <? 1)%Z then Some UnsupportedQueryError else None.
Proof.
  assert (H : (- 2 ^ 63 <= 0 < 2 ^ 63)%Z) by lia.
  split; [exact H|].
  exact (result_builders_validate isNumeric_int isDateTime_none "name" Builders.AscOrder 0 H).
Defined.

(** ** Criteria of a request *)

Lemma process_parsed_ok (isNumeric isDateTime : string -> bool)
  (input : string) (t : CriterionType) (cs : list Criterion) :
  process isNumeric isDateTime input t = Ok cs ->
  forall x, In x cs -> parsed_ok isNumeric isDateTime t x.
Proof.
  unfold process. destruct (String.eqb input "").
  - intros [= <-] x [].
  - intros H. exact (proj2 (process_loop_ok isNumeric isDateTime input t _ 0 0 "" None [] cs
                              ltac:(discriminate) ltac:(intros x []) H)).
Qed.

Lemma count_key_other_type (t t' : CriterionType) (k : string) (l : list Criterion) :
  (forall x, In x l -> Typ x = t') -> t <> t' -> count_key t k l = 0%nat.
Proof.
  intros Hl Ht. destruct (count_key t k l) eqn:E; [reflexivity|].
  destruct (count_key_exists t k l ltac:(lia)) as [d [Hd [Htd _]]].
  rewrite (Hl d Hd) in Htd. congruence.
Qed.

(** [BuildCriteriaFromRequest] succeeds exactly when the [fieldQuery] and
    [labelQuery] parameters both parse and no key occurs twice among the
    criteria of one type; it then returns the field criteria followed by the
    label criteria, passed through the sort by key. *)
Theorem BuildCriteriaFromRequest_ok (isNumeric isDateTime : string -> bool)
  (sortByLeftOp : list Criterion -> list Criterion) (query : Builders.Values)
  (cs : list Criterion) :
  Builders.BuildCriteriaFromRequest isNumeric isDateTime sortByLeftOp query = Ok cs <->
  exists fs ls,
    process isNumeric isDateTime (Builders.Get query "fieldQuery") FieldQuery = Ok fs /\
    process isNumeric isDateTime (Builders.Get query "labelQuery") LabelQuery = Ok ls /\
    (forall t k, (count_key t k (fs ++ ls)%list <= 1)%nat) /\
    cs = sortByLeftOp (fs ++ ls)%list.
Proof.
  unfold Builders.BuildCriteriaFromRequest.
  cbn [Builders.build_loop Builders.supportedQueryTypes Builders.ctype_name].
  split.
  - destruct (process isNumeric isDateTime (Builders.Get query "fieldQuery") FieldQuery)
      as [fs|e] eqn:Ef; [|discriminate].
    destruct (mergeCriteria isNumeric isDateTime [] fs) as [m1|e] eqn:E1; [|discriminate].
    destruct (process isNumeric isDateTime (Builders.Get query "labelQuery") LabelQuery)
      as [ls|e] eqn:El; [|discriminate].
    destruct (mergeCriteria isNumeric isDateTime m1 ls) as [m2|e] eqn:E2; [|discriminate].
    intros [= <-].
    apply mergeCriteria_ok_iff in E1 as [-> H1]. simpl in H1.
    apply mergeCriteria_ok_iff in E2 as [-> H2]. simpl in H2.
    exists fs, ls. split; [reflexivity|]. split; [reflexivity|]. split; [|reflexivity].
    intros t k.
    destruct (count_key t k (fs ++ ls)%list) as [|n] eqn:Ec; [lia|].
    destruct (count_key_exists t k (fs ++ ls)%list ltac:(lia)) as [d [Hd [Htd Hkd]]].
    rewrite <- Ec. apply in_app_or in Hd as [Hd|Hd].
    + pose proof (process_parsed_ok _ _ _ _ _ Ef d Hd) as [Hdt _].
      destruct (H1 d Hd) as [Hc _]. rewrite Htd, Hkd in Hc.
      rewrite count_key_app, (count_key_other_type t LabelQuery k ls).
      * rewrite Nat.add_0_r. apply Hc. congruence.
      * exact (fun x Hx => proj1 (process_parsed_ok _ _ _ _ _ El x Hx)).
      * congruence.
    + pose proof (process_parsed_ok _ _ _ _ _ El d Hd) as [Hdt _].
      destruct (H2 d Hd) as [Hc _]. rewrite Htd, Hkd in Hc. apply Hc. congruence.
  - intros [fs [ls [Ef [El [Hc ->]]]]].
    rewrite Ef.
    assert (E1 : mergeCriteria isNumeric isDateTime [] fs = Ok fs).
    { apply mergeCriteria_ok_iff. split; [reflexivity|].
      intros c Hin. simpl.
      destruct (process_parsed_ok _ _ _ _ _ Ef c Hin) as [_ [_ [_ Hv]]].
      split; [|exact Hv]. intros _.
      specialize (Hc (Typ c) (LeftOp c)). rewrite count_key_app in Hc. lia. }
    rewrite E1, El.
    assert (E2 : mergeCriteria isNumeric isDateTime fs ls = Ok (fs ++ ls)%list).
    { apply mergeCriteria_ok_iff. split; [reflexivity|].
      intros c Hin.
      destruct (process_parsed_ok _ _ _ _ _ El c Hin) as [_ [_ [_ Hv]]].
      split; [|exact Hv]. intros _. apply Hc. }
    rewrite E2. reflexivity.
Qed.

(** ** Storage helpers of the second postgres version (part 004) *)

(** With the columns [columnsByTags] derives from the struct tags,
    [validateFieldQueryParams] accepts the criteria exactly when the key of
    every field criterion is the part before the first comma of some tag;
    label and result criteria are not checked. When it refuses, the error
    is an unsupported-query error. *)
Theorem validate_columnsByTags (tags : list string) (criteria : list Criterion) :
  (Postgres004.validateFieldQueryParams (Postgres004.columnsByTags tags) criteria = None <->
   forall c, In c criteria -> Typ c = FieldQuery ->
     exists tag, In tag tags /\ Postgres004.before_comma tag = LeftOp c) /\
  (Postgres004.validateFieldQueryParams (Postgres004.columnsByTags tags) criteria = None \/
   Postgres004.validateFieldQueryParams (Postgres004.columnsByTags tags) criteria
     = Some UnsupportedQueryError).
Proof.
  assert (Hcol : forall k, existsb (String.eqb k) (Postgres004.columnsByTags tags) = true <->
                      exists tag, In tag tags /\ Postgres004.before_comma tag = k).
  { intros k. unfold Postgres004.columnsByTags. rewrite existsb_exists. split.
    - intros [x [Hx Hk]]. apply in_map_iff in Hx as [tag [<- Ht]].
      apply String.eqb_eq in Hk. exists tag. split; [exact Ht | congruence].
    - intros [tag [Ht Hk]]. exists (Postgres004.before_comma tag).
      split; [apply in_map; exact Ht | apply String.eqb_eq; congruence]. }
  induction criteria as [|c rest IH]; simpl.
  - split; [split; [intros _ c []| reflexivity] | now left].
  - destruct IH as [IH1 IH2].
    destruct (ctype_eqb (Typ c) FieldQuery) eqn:Et; simpl.
    + apply ctype_eqb_true in Et.
      destruct (existsb (String.eqb (LeftOp c)) (Postgres004.columnsByTags tags)) eqn:Ek; simpl.
      * apply Hcol in Ek. split; [|exact IH2]. rewrite IH1. split.
        -- intros H d [<-|Hd] Hdt; [exact Ek | exact (H d Hd Hdt)].
        -- intros H d Hd Hdt. exact (H d (or_intror Hd) Hdt).
      * split; [|now right]. split; [discriminate|].
        intros H. assert (Hx := proj2 (Hcol (LeftOp c)) (H c (or_introl eq_refl) Et)). congruence.
    + split; [|exact IH2]. rewrite IH1. split.
      * intros H d [<-|Hd] Hdt; [|exact (H d Hd Hdt)].
        rewrite Hdt in Et. discriminate.
      * intros H d Hd Hdt. exact (H d (or_intror Hd) Hdt).
Qed.

(** A [json.RawMessage] of [null] is stored as the JSON text [{}]; reading
    back with [getJSONRawMessage] gives nil for [null], for [{}] and for nil,
    and the original bytes for every other message. In the other direction,
    a stored text of [{}] or [null] reads as nil and is stored back as nil;
    every other text comes back unchanged. *)
Theorem json_round_trips (m t : Postgres004.Bytes) :
  Postgres004.getJSONRawMessage (Postgres004.getJSONText m) =
  match m with
  | Some s => if String.eqb s "null" || String.eqb s "{}" then None else m
  | None => None
  end /\
  Postgres004.getJSONText (Postgres004.getJSONRawMessage t) =
  match t with
  | Some s => if String.eqb s "{}" || String.eqb s "null" then None else t
  | None => None
  end.
Proof.
  split.
  - destruct m as [s|]; [|reflexivity].
    unfold Postgres004.getJSONText, Postgres004.getJSONRawMessage.
    cbn [Postgres004.bytes_len Postgres004.bytes_string].
    destruct (String.eqb s "null") eqn:En.
    + apply String.eqb_eq in En. subst s. reflexivity.
    + rewrite andb_false_r. cbn [Postgres004.bytes_len Postgres004.bytes_string].
      destruct (String.eqb s "{}") eqn:Eb.
      * apply String.eqb_eq in Eb. subst s. reflexivity.
      * rewrite En. destruct (String.length s <=? 4)%nat; reflexivity.
  - destruct t as [s|]; [|reflexivity].
    unfold Postgres004.getJSONRawMessage.
    cbn [Postgres004.bytes_len Postgres004.bytes_string].
    destruct (String.eqb s "{}") eqn:Eb.
    + apply String.eqb_eq in Eb. subst s. reflexivity.
    + destruct (String.eqb s "null") eqn:En.
      * apply String.eqb_eq in En. subst s. reflexivity.
      * simpl orb. unfold Postgres004.getJSONText.
        cbn [Postgres004.bytes_len Postgres004.bytes_string].
        destruct (String.length s <=? 4)%nat; cbn [Postgres004.bytes_len Postgres004.bytes_string];
          rewrite En, andb_false_r; reflexivity.
Qed.

Lemma concat_colon (l : list string) : l <> [] ->
  ":" ++ String.concat ", :" l = String.concat ", " (map (fun t => ":" ++ t) l).
Proof.
  induction l as [|x [|y r] IH]; intros Hl; [contradiction | reflexivity|].
  change (":" ++ (x ++ ", :" ++ String.concat ", :" (y :: r))
          = (":" ++ x) ++ ", " ++ String.concat ", " (map (fun t => ":" ++ t) (y :: r))).
  rewrite <- IH by discriminate.
  rewrite string_app_assoc. reflexivity.
Qed.

(** [create] reports that there is nothing to insert exactly when
    [getDBTags] finds no column. Otherwise its statement lists the columns
    in order and binds each one to the named parameter of the same name:
    [INSERT INTO t (a, b) VALUES(:a, :b) RETURNING *;]. *)
Theorem create_statement_shape (table : string) (argsDto : list Postgres004.Field) :
  match Postgres004.getDBTags argsDto (Some Postgres004.isAutoIncrementable) with
  | [] => Postgres004.create_statement table argsDto = None
  | cols =>
      Postgres004.create_statement table argsDto =
      Some ("INSERT INTO " ++ table ++ " (" ++ String.concat ", " cols ++ ") VALUES(" ++
            String.concat ", " (map (fun t => ":" ++ t) cols) ++ ") RETURNING *;")
  end.
Proof.
  unfold Postgres004.create_statement.
  destruct (Postgres004.getDBTags argsDto (Some Postgres004.isAutoIncrementable)) as [|c cs] eqn:E;
    [reflexivity|].
  rewrite <- concat_colon by discriminate.
  reflexivity.
Qed.

(** The error path of [create] and [update]: a nil error stays nil, an error
    that is not a [*pq.Error] is returned unchanged, and a unique violation
    is reported as [ErrAlreadyExistsInStorage], although its SQLSTATE
    class 23 would otherwise make it a bad request. *)
Theorem storage_error_chain (code_name : string -> string) (code : string)
  (Hu : code_name code = "unique_violation") :
  Postgres004.checkIntegrityViolation (Postgres004.checkUniqueViolation code_name
    (Some (Postgres004.PqError code))) = Postgres004.Returns (Some Postgres004.ErrAlreadyExistsInStorage) /\
  Postgres004.checkIntegrityViolation (Postgres004.checkUniqueViolation code_name None)
    = Postgres004.Returns None /\
  forall e, (forall c, e <> Postgres004.PqError c) ->
    Postgres004.checkIntegrityViolation (Postgres004.checkUniqueViolation code_name (Some e))
      = Postgres004.Returns (Some e).
Proof.
  split; [|split; [reflexivity|]].
  - unfold Postgres004.checkUniqueViolation. rewrite Hu. reflexivity.
  - intros e He. destruct e; try reflexivity. exfalso. exact (He code0 eq_refl).
Qed.

Lemma storage_error_chain_witness :
  pq_code_name "23505" = "unique_violation" /\
  Postgres004.checkIntegrityViolation (Postgres004.checkUniqueViolation pq_code_name
    (Some (Postgres004.PqError "23505"))) = Postgres004.Returns (Some Postgres004.ErrAlreadyExistsInStorage) /\
  Postgres004.checkIntegrityViolation (Postgres004.checkUniqueViolation pq_code_name None)
    = Postgres004.Returns None /\
  forall e, (forall c, e <> Postgres004.PqError c) ->
    Postgres004.checkIntegrityViolation (Postgres004.checkUniqueViolation pq_code_name (Some e))
      = Postgres004.Returns (Some e).
Proof.
  assert (Hu : pq_code_name "23505" = "unique_violation") by reflexivity.
  split; [exact Hu|].
  exact (storage_error_chain pq_code_name "23505" Hu).
Defined.

(** ** Validation of field and label criteria; tags of the two storage versions *)

Lemma validate_keys_none (c : Criterion) :
  validate_keys c = None <->
  contains_char Separator (LeftOp c) = false /\
  (forall r, In r (RightOp c) -> contains_char Newline r = false).
Proof.
  unfold validate_keys.
  destruct (contains_char Separator (LeftOp c)).
  - destruct (FieldsFunc (LeftOp c)); split; try discriminate; intros [H _]; discriminate.
  - destruct (existsb (contains_char Newline) (RightOp c)) eqn:E.
    + split; [discriminate|]. intros [_ H].
      apply existsb_exists in E as [r [Hr Hn]]. rewrite (H r Hr) in Hn. discriminate.
    + split; [intros _; split; [reflexivity|] | reflexivity].
      intros r Hr. destruct (contains_char Newline r) eqn:Hn; [|reflexivity].
      rewrite <- E. symmetry. apply existsb_exists. exists r. split; assumption.
Qed.

(** [Validate] accepts a field or label criterion exactly when: it has at
    most one right operand unless its operator is [in] or [notin]; an
    [eqornil] operator is used on a field query only; a numeric operator
    ([gt], [gte], [lt], [lte]) has a first operand that is a number or an
    RFC 3339 date-time; the key has no [|]; and no right operand holds a
    newline. *)
Theorem Validate_field_label (isNumeric isDateTime : string -> bool) (c : Criterion)
  (Ht : Typ c <> ResultQuery) :
  Validate isNumeric isDateTime c = None <->
  ((List.length (RightOp c) <= 1)%nat \/ IsMultiVariate (Oper c) = true) /\
  (IsNullable (Oper c) = true -> Typ c = FieldQuery) /\
  (IsNumeric (Oper c) = true ->
     exists r0 rest, RightOp c = r0 :: rest /\ (isNumeric r0 || isDateTime r0) = true) /\
  contains_char Separator (LeftOp c) = false /\
  (forall r, In r (RightOp c) -> contains_char Newline r = false).
Proof.
  assert (HV : Validate isNumeric isDateTime c =
    if (1 <? List.length (RightOp c))%nat && negb (IsMultiVariate (Oper c))
    then Some UnsupportedQueryError
    else if IsNullable (Oper c) && negb (ctype_eqb (Typ c) FieldQuery)
    then Some UnsupportedQueryError
    else if IsNumeric (Oper c) then
      match RightOp c with
      | [] => Some IndexOutOfRange
      | r0 :: _ =>
          if negb (isNumeric r0) && negb (isDateTime r0)
          then Some UnsupportedQueryError
          else validate_keys c
      end
    else validate_keys c)
    by (unfold Validate; destruct (Typ c); [reflexivity | reflexivity | contradiction]).
  rewrite HV, <- validate_keys_none. clear HV.
  destruct ((1 <? List.length (RightOp c))%nat && negb (IsMultiVariate (Oper c))) eqn:E1.
  - apply andb_true_iff in E1 as [El Em]. apply Nat.ltb_lt in El. apply negb_true_iff in Em.
    split; [discriminate|]. intros [[H|H] _]; [lia | congruence].
  - assert (H1 : ((List.length (RightOp c) <= 1)%nat \/ IsMultiVariate (Oper c) = true)).
    { apply andb_false_iff in E1 as [El|Em]; [apply Nat.ltb_ge in El; now left|].
      right. now apply negb_false_iff in Em. }
    destruct (IsNullable (Oper c) && negb (ctype_eqb (Typ c) FieldQuery)) eqn:E2.
    + apply andb_true_iff in E2 as [En Et]. apply negb_true_iff in Et.
      split; [discriminate|]. intros [_ [H _]].
      rewrite (H En) in Et. discriminate.
    + assert (H2 : IsNullable (Oper c) = true -> Typ c = FieldQuery).
      { intros En. rewrite En in E2. simpl in E2.
        apply negb_false_iff, ctype_eqb_true in E2. exact E2. }
      destruct (IsNumeric (Oper c)) eqn:E3.
      * destruct (RightOp c) as [|r0 rest] eqn:Er.
        -- split; [discriminate|]. intros [_ [_ [H _]]].
           destruct (H eq_refl) as [? [? [Hr _]]]. discriminate.
        -- destruct (negb (isNumeric r0) && negb (isDateTime r0)) eqn:E4.
           ++ split; [discriminate|]. intros [_ [_ [H _]]].
              destruct (H eq_refl) as [r0' [rest' [Hr Hv]]]. injection Hr as <- _.
              apply andb_true_iff in E4 as [Ea Eb]. apply negb_true_iff in Ea, Eb.
              rewrite Ea, Eb in Hv. discriminate.
           ++ split.
              ** intros Hk. split; [exact H1|]. split; [exact H2|]. split; [|exact Hk].
                 intros _. exists r0, rest. split; [reflexivity|].
                 apply andb_false_iff in E4 as [Ea|Eb];
                   [apply negb_false_iff in Ea; now rewrite Ea
                   |apply negb_false_iff in Eb; now rewrite Eb, orb_true_r].
              ** intros [_ [_ [_ Hk]]]. exact Hk.
      * split.
        -- intros Hk. split; [exact H1|]. split; [exact H2|]. split; [|exact Hk].
           discriminate.
        -- intros [_ [_ [_ Hk]]]. exact Hk.
Qed.

Lemma Validate_field_label_witness :
  Typ (ByLabel EqualsOrNilOperator "env" ["dev"]) <> ResultQuery /\
  (Validate isNumeric_int isDateTime_none (ByLabel EqualsOrNilOperator "env" ["dev"]) = None <->
   ((List.length (RightOp (ByLabel EqualsOrNilOperator "env" ["dev"])) <= 1)%nat \/
    IsMultiVariate (Oper (ByLabel EqualsOrNilOperator "env" ["dev"])) = true) /\
   (IsNullable (Oper (ByLabel EqualsOrNilOperator "env" ["dev"])) = true ->
    Typ (ByLabel EqualsOrNilOperator "env" ["dev"]) = FieldQuery) /\
   (IsNumeric (Oper (ByLabel EqualsOrNilOperator "env" ["dev"])) = true ->
     exists r0 rest, RightOp (ByLabel EqualsOrNilOperator "env" ["dev"]) = r0 :: rest /\
       (isNumeric_int r0 || isDateTime_none r0) = true) /\
   contains_char Separator (LeftOp (ByLabel EqualsOrNilOperator "env" ["dev"])) = false /\
   (forall r, In r (RightOp (ByLabel EqualsOrNilOperator "env" ["dev"])) ->
      contains_char Newline r = false)).
Proof.
  assert (Ht : Typ (ByLabel EqualsOrNilOperator "env" ["dev"]) <> ResultQuery) by discriminate.
  split; [exact Ht|].
  exact (Validate_field_label isNumeric_int isDateTime_none _ Ht).
Defined.

(** ** Segments joined by a separator *)

Section LoopShape.

Variable isNumeric : string -> bool.
Variable isDateTime : string -> bool.
Variable t : CriterionType.

Lemma process_loop_fuel (input : string) (f : nat) :
  forall i j leftOp operator c f',
  (String.length input <= i + f)%nat -> (f <= f')%nat ->
  process_loop isNumeric isDateTime f' input t i j leftOp operator c
  = process_loop isNumeric isDateTime f input t i j leftOp operator c.
Proof.
  induction f as [|f IH]; intros i j leftOp operator c f' Hf Hf'.
  - destruct f' as [|f'']; [reflexivity|]. cbn [process_loop]. cbv zeta.
    replace (i <? String.length input)%nat with false by (symmetry; apply Nat.ltb_ge; lia).
    reflexivity.
  - destruct f' as [|f'']; [lia|]. cbn [process_loop]. cbv zeta.
    destruct (i <? String.length input)%nat; [|reflexivity].
    destruct operator as [op|].
    + destruct (negb (String.eqb leftOp "")).
      * destruct (String.length input <? i + String.length (op_token op) + 1)%nat; [reflexivity|].
        destruct (findRightOp _ leftOp op t) as [[rightOp offset]|e]; [|reflexivity].
        destruct (Validate isNumeric isDateTime (newCriterion leftOp op rightOp t)); [reflexivity|].
        apply IH; lia.
      * destruct (match_operator operators (slice_from input i)) as [op'|];
          [destruct (i <? j)%nat; [reflexivity|]|]; apply IH; lia.
    + destruct (match_operator operators (slice_from input i)) as [op'|];
        [destruct (i <? j)%nat; [reflexivity|]|]; apply IH; lia.
Qed.

Lemma process_loop_prefix (input : string) (f : nat) :
  forall i j leftOp operator c cs c0,
  process_loop isNumeric isDateTime f input t i j leftOp operator c = Ok cs ->
  process_loop isNumeric isDateTime f input t i j leftOp operator (c0 ++ c)%list = Ok (c0 ++ cs)%list.
Proof.
  induction f as [|f IH]; intros i j leftOp operator c cs c0 H.
  - unfold process_loop, process_finish in *.
    destruct c as [|x c]; [discriminate|]. injection H as <-.
    destruct (c0 ++ x :: c)%list eqn:E; [destruct c0; discriminate | reflexivity].
  - cbn [process_loop] in *. cbv zeta in *.
    destruct (i <? String.length input)%nat.
    + destruct operator as [op|].
      * destruct (negb (String.eqb leftOp "")).
        -- destruct (String.length input <? i + String.length (op_token op) + 1)%nat; [discriminate|].
           destruct (findRightOp _ leftOp op t) as [[rightOp offset]|e]; [|discriminate].
           destruct (Validate isNumeric isDateTime (newCriterion leftOp op rightOp t)); [discriminate|].
           rewrite <- app_assoc. apply IH. exact H.
        -- destruct (match_operator operators (slice_from input i)) as [op'|];
             [destruct (i <? j)%nat; [discriminate|]|]; apply IH; exact H.
      * destruct (match_operator operators (slice_from input i)) as [op'|];
          [destruct (i <? j)%nat; [discriminate|]|]; apply IH; exact H.
    + unfold process_finish in *.
      destruct c as [|x c]; [discriminate|]. injection H as <-.
      destruct (c0 ++ x :: c)%list eqn:E; [destruct c0; discriminate | reflexivity].
Qed.

Lemma substring_shift (pre rest : string) (n m : nat) :
  substring (String.length pre + n) m (pre ++ rest) = substring n m rest.
Proof. induction pre as [|a pre IH]; [reflexivity | exact IH]. Qed.

Lemma slice_from_shift (pre rest : string) (n : nat) :
  slice_from (pre ++ rest) (String.length pre + n) = slice_from rest n.
Proof.
  unfold slice_from. rewrite string_length_append.
  replace (String.length pre + String.length rest - (String.length pre + n))%nat
    with (String.length rest - n)%nat by lia.
  apply substring_shift.
Qed.

Lemma ltb_add_l (a b c : nat) : (a + b <? a + c)%nat = (b <? c)%nat.
Proof.
  destruct (Nat.ltb_spec (a + b) (a + c)), (Nat.ltb_spec b c); try reflexivity; lia.
Qed.

Lemma process_loop_shift (pre rest : string) (f : nat) :
  forall i j leftOp operator c,
  process_loop isNumeric isDateTime f (pre ++ rest) t
    (String.length pre + i) (String.length pre + j) leftOp operator c
  = process_loop isNumeric isDateTime f rest t i j leftOp operator c.
Proof.
  induction f as [|f IH]; intros i j leftOp operator c; [reflexivity|].
  cbn [process_loop]. cbv zeta.
  rewrite string_length_append, ltb_add_l.
  destruct (i <? String.length rest)%nat; [|reflexivity].
  assert (Hscan :
    match match_operator operators (slice_from (pre ++ rest) (String.length pre + i)) with
    | Some op =>
        if (String.length pre + i <? String.length pre + j)%nat then Err IndexOutOfRange
        else process_loop isNumeric isDateTime f (pre ++ rest) t (S (String.length pre + i))
               (String.length pre + j)
               (substring (String.length pre + j) (String.length pre + i - (String.length pre + j))
                  (pre ++ rest)) (Some op) c
    | None => process_loop isNumeric isDateTime f (pre ++ rest) t (S (String.length pre + i))
                (String.length pre + j) leftOp operator c
    end =
    match match_operator operators (slice_from rest i) with
    | Some op =>
        if (i <? j)%nat then Err IndexOutOfRange
        else process_loop isNumeric isDateTime f rest t (S i) j (substring j (i - j) rest) (Some op) c
    | None => process_loop isNumeric isDateTime f rest t (S i) j leftOp operator c
    end).
  { rewrite slice_from_shift, ltb_add_l.
    replace (String.length pre + i - (String.length pre + j))%nat with (i - j)%nat by lia.
    rewrite substring_shift, <- Nat.add_succ_r.
    destruct (match_operator operators (slice_from rest i)) as [op|];
      [destruct (i <? j)%nat; [reflexivity|]|]; apply IH. }
  destruct operator as [op|]; [|exact Hscan].
  destruct (negb (String.eqb leftOp "")); [|exact Hscan].
  replace (String.length pre + i + String.length (op_token op) + 1)%nat
    with (String.length pre + (i + String.length (op_token op) + 1))%nat by lia.
  rewrite ltb_add_l, slice_from_shift.
  destruct (String.length rest <? i + String.length (op_token op) + 1)%nat; [reflexivity|].
  destruct (findRightOp _ leftOp op t) as [[rightOp offset]|e]; [|reflexivity].
  destruct (Validate isNumeric isDateTime (newCriterion leftOp op rightOp t)); [reflexivity|].
  replace (S (String.length pre + (i + String.length (op_token op) + 1) - String.length (op_token op) - 1 + offset + String.length (op_token op) + 1))%nat
    with (S (String.length pre + i + offset + String.length (op_token op) + 1))%nat by lia.
  replace (S (String.length pre + i + offset + String.length (op_token op) + 1))%nat
    with (String.length pre + S (i + offset + String.length (op_token op) + 1))%nat by lia.
  apply IH.
Qed.

End LoopShape.

Lemma scan_app_no_separator (rem v r : string) :
  contains_char Separator v = false ->
  forall offset buf acc,
  scan rem (v ++ r) offset buf acc = scan rem r (offset + String.length v) (buf ++ v) acc.
Proof.
  induction v as [|ch v IH]; intros Hs offset buf acc.
  - cbn. now rewrite Nat.add_0_r, string_app_nil_r.
  - simpl in Hs. apply orb_false_iff in Hs as [Hc Hs].
    change (String ch v ++ r) with (String ch (v ++ r)).
    unfold scan at 1; fold scan. rewrite Hc, IH by exact Hs.
    rewrite string_app_assoc. cbn [String.length]. rewrite Nat.add_succ_r. reflexivity.
Qed.

Lemma scan_separator (rem r : string) (offset : nat) (buf : string) (acc : list string) :
  scan rem (String Separator r) offset buf acc =
  if (offset + 1 <? String.length rem)%nat
     && is_byte (byte_at rem (offset + 1)) Separator then
    match prev_byte rem offset with
    | None => Err IndexOutOfRange
    | Some p =>
        if negb (Ascii.eqb p Backslash)
        then scan rem r (S offset) "" (acc ++ [buf])%list
        else
          if Ascii.eqb p Separator then scan rem r (S offset) buf acc
          else
            if (String.length buf <? offset - 1)%nat then Err IndexOutOfRange
            else scan rem r (S offset)
                   (substring 0 (offset - 1) buf ++ String Separator EmptyString) acc
    end
  else
    match prev_byte rem offset with
    | None => Err IndexOutOfRange
    | Some p =>
        if Ascii.eqb p Separator then scan rem r (S offset) buf acc
        else if negb (Ascii.eqb p Backslash)
        then Ok ((acc ++ [buf])%list, "", offset)
        else
          if (String.length buf <? offset - 1)%nat then Err IndexOutOfRange
          else scan rem r (S offset)
                 (substring 0 (offset - 1) buf ++ String Separator EmptyString) acc
    end.
Proof. reflexivity. Qed.

Lemma get_app_r (v r : string) (n : nat) :
  String.get (String.length v + n) (v ++ r) = String.get n r.
Proof. induction v as [|a v IH]; [reflexivity | exact IH]. Qed.

Lemma findRightOp_break (v s2 leftOp : string) (op : Operator) (t : CriterionType) :
  v <> EmptyString -> contains_char Separator v = false -> contains_char Backslash v = false ->
  String.get 0 s2 <> Some Separator -> IsMultiVariate op = false ->
  findRightOp (v ++ String Separator s2) leftOp op t = Ok ([v], String.length v).
Proof.
  intros Hv Hs Hb H2 Hm. unfold findRightOp.
  rewrite (scan_app_no_separator (v ++ String Separator s2) v (String Separator s2) Hs 0 "" []).
  rewrite scan_separator. cbn [Nat.add append].
  replace ((String.length v + 1 <? String.length (v ++ String Separator s2))%nat
           && is_byte (byte_at (v ++ String Separator s2) (String.length v + 1)) Separator)
    with false.
  2:{ rewrite string_length_append. cbn [String.length].
      destruct s2 as [|ch s2'].
      - cbn [String.length].
        replace (String.length v + 1 <? String.length v + 1)%nat with false
          by (symmetry; apply Nat.ltb_ge; lia). reflexivity.
      - unfold byte_at. rewrite get_app_r. cbn [String.get is_byte].
        destruct (Ascii.eqb ch Separator) eqn:E; [|now rewrite andb_false_r].
        apply Ascii.eqb_eq in E. subst ch. contradiction. }
  assert (Hl : (0 < String.length v)%nat) by (destruct v; [contradiction | cbn; lia]).
  destruct (slice_from_get v (String.length v - 1) ltac:(lia)) as [p [rest [_ Hp]]].
  pose proof (get_no_char v _ p Separator Hs Hp) as Hsep.
  pose proof (get_no_char v _ p Backslash Hb Hp) as Hbs.
  assert (Hprev : prev_byte (v ++ String Separator s2) (String.length v) = Some p).
  { unfold prev_byte, byte_at.
    replace (String.length v) with (S (String.length v - 1)) at 1 by lia.
    rewrite <- (String.append_correct1 v (String Separator s2) (String.length v - 1)) by lia.
    exact Hp. }
  rewrite Hprev.
  destruct (Ascii.eqb p Separator) eqn:E1; [apply Ascii.eqb_eq in E1; contradiction|].
  destruct (Ascii.eqb p Backslash) eqn:E2; [apply Ascii.eqb_eq in E2; contradiction|].
  cbn [negb app]. unfold close_buffer. cbn [String.length Nat.ltb Nat.leb List.length andb].
  rewrite Hm. reflexivity.
Qed.

(** A segment [k op v] followed by [|] and the rest of a query parses to its
    criterion followed by the criteria of the rest, when the first criterion
    is valid and the rest parses on its own. The key has no space, the
    operator is not multivariate, and the value is non-empty without [|] or
    a backslash; the rest must not start with another [|], which would make
    a doubled separator. The value and the rest are ASCII, so the rune
    offsets of Go's scan are byte offsets. *)
Theorem process_concat (isNumeric isDateTime : string -> bool)
  (k : string) (op : Operator) (v : string) (t : CriterionType) (s2 : string)
  (cs : list Criterion)
  (Hk : k <> EmptyString) (Hsp : contains_char OperandSeparator k = false)
  (Hop : In op operators) (Hmv : IsMultiVariate op = false)
  (Hv : v <> EmptyString) (Hs : contains_char Separator v = false)
  (Hb : contains_char Backslash v = false) (H2 : String.get 0 s2 <> Some Separator)
  (Hav : is_ascii v = true) (Has : is_ascii s2 = true)
  (Hval : Validate isNumeric isDateTime (newCriterion k op [v] t) = None)
  (Hrest : process isNumeric isDateTime s2 t = Ok cs) :
  process isNumeric isDateTime (k ++ op_pattern op ++ v ++ String Separator s2) t
  = Ok (newCriterion k op [v] t :: cs).
Proof.
  set (F := (String.length (op_token op) + String.length v + 1 + String.length s2)%nat).
  assert (Hlen : String.length (k ++ op_pattern op ++ v ++ String Separator s2) = (S (S F) + String.length k)%nat)
    by (unfold F; rewrite !string_length_append, op_pattern_length; cbn [String.length]; lia).
  assert (Hv0 : (0 < String.length v)%nat) by (destruct v; [contradiction | simpl; lia]).
  unfold process.
  replace (String.eqb (k ++ op_pattern op ++ v ++ String Separator s2) "") with false
    by (destruct k; [contradiction | reflexivity]).
  rewrite Hlen.
  rewrite (process_loop_key isNumeric isDateTime (k ++ op_pattern op ++ v ++ String Separator s2) t (String.length k)
             ltac:(lia) (no_operator_in_key k (op_pattern op ++ v ++ String Separator s2) Hsp)
             (String.length k) _ 0 eq_refl).
  cbn [process_loop].
  replace (String.length k <? String.length (k ++ op_pattern op ++ v ++ String Separator s2))%nat with true
    by (symmetry; apply Nat.ltb_lt; lia).
  rewrite slice_from_app_length, match_operator_pattern_app by exact Hop.
  replace (String.length k <? 0)%nat with false by (symmetry; apply Nat.ltb_ge; lia).
  rewrite Nat.sub_0_r, substring_0_length_app.
  cbn [process_loop].
  replace (S (String.length k) <? String.length (k ++ op_pattern op ++ v ++ String Separator s2))%nat with true
    by (symmetry; apply Nat.ltb_lt; lia).
  replace (negb (String.eqb k "")) with true
    by (destruct k; [contradiction | reflexivity]).
  replace (String.length (k ++ op_pattern op ++ v ++ String Separator s2)
           <? S (String.length k) + String.length (op_token op) + 1)%nat with false
    by (symmetry; apply Nat.ltb_ge; lia).
  replace (S (String.length k) + String.length (op_token op) + 1)%nat
    with (String.length (k ++ op_pattern op))
    by (rewrite string_length_append, op_pattern_length; lia).
  replace (slice_from (k ++ op_pattern op ++ v ++ String Separator s2) (String.length (k ++ op_pattern op)))
    with (v ++ String Separator s2)
    by (rewrite <- string_app_assoc; symmetry; apply slice_from_app_length).
  rewrite findRightOp_break by assumption.
  cbv beta iota zeta. rewrite Hval.
  set (pre := k ++ op_pattern op ++ v ++ String Separator "").
  assert (Hin : (k ++ op_pattern op ++ v ++ String Separator s2) = pre ++ s2)
    by (unfold pre; rewrite !string_app_assoc; reflexivity).
  assert (Hpre : String.length pre
                 = S (String.length (k ++ op_pattern op) + String.length v))
    by (unfold pre; rewrite !string_length_append, op_pattern_length; cbn [String.length]; lia).
  replace (S (S (String.length k) + String.length v + String.length (op_token op) + 1))%nat
    with (String.length pre + 0)%nat
    by (rewrite Hpre, string_length_append, op_pattern_length; lia).
  rewrite Hin, process_loop_shift. cbn [app].
  unfold process in Hrest.
  destruct (String.eqb s2 "") eqn:Es2.
  - apply String.eqb_eq in Es2. subst s2. injection Hrest as <-.
    rewrite (process_loop_fuel isNumeric isDateTime t "" 0) by (cbn; lia).
    reflexivity.
  - rewrite (process_loop_fuel isNumeric isDateTime t s2 (String.length s2)) by (unfold F; lia).
    exact (process_loop_prefix isNumeric isDateTime t s2 _ 0 0 "" None [] cs
             [newCriterion k op [v] t] Hrest).
Qed.

Lemma process_concat_witness :
  process isNumeric_int isDateTime_none
    ("name" ++ op_pattern EqualsOperator ++ "foo" ++ String Separator "count gt 3") FieldQuery
  = Ok (newCriterion "name" EqualsOperator ["foo"] FieldQuery ::
        [ByField GreaterThanOperator "count" ["3"]]).
Proof.
  assert (Hk : "name" <> EmptyString) by discriminate.
  assert (Hsp : contains_char OperandSeparator "name" = false) by reflexivity.
  assert (Ho : In EqualsOperator operators) by (simpl; auto).
  assert (Hm : IsMultiVariate EqualsOperator = false) by reflexivity.
  assert (Hv : "foo" <> EmptyString) by discriminate.
  assert (Hs : contains_char Separator "foo" = false) by reflexivity.
  assert (Hb : contains_char Backslash "foo" = false) by reflexivity.
  assert (H2 : String.get 0 "count gt 3" <> Some Separator) by discriminate.
  assert (Hav : is_ascii "foo" = true) by reflexivity.
  assert (Has : is_ascii "count gt 3" = true) by reflexivity.
  assert (Hval : Validate isNumeric_int isDateTime_none
                   (newCriterion "name" EqualsOperator ["foo"] FieldQuery) = None)
    by (vm_compute; reflexivity).
  assert (Hrest : process isNumeric_int isDateTime_none "count gt 3" FieldQuery
                  = Ok [ByField GreaterThanOperator "count" ["3"]])
    by (vm_compute; reflexivity).
  exact (process_concat isNumeric_int isDateTime_none "name" EqualsOperator "foo" FieldQuery
           "count gt 3" _ Hk Hsp Ho Hm Hv Hs Hb H2 Hav Has Hval Hrest).
Defined.
